(** * imageCompressor: a shallow embedding of [script.js]

    The page script compresses every selected image to about a tenth of its
    size.  This development embeds the script's functions
    ([resizeDimensions], [dataURLtoBlob], [changeFileExtension],
    [compressImage], [displayPreviewCard], [checkCompletion],
    [processImage], the [change] listener of the file input and the [click]
    listener of the download button) and states the properties of the
    design document over them, then further properties of the code.

    Conventions of the embedding.
    - JavaScript numbers are kept abstract behind the class [JsNumber]; the
      functions are written once and read at two instances: [binary64]
      (IEEE 754 doubles, from the Standard Library's [SpecFloat]), which is
      what the browser computes, and [Q], exact arithmetic.
    - JavaScript objects built by literals are finite maps from property
      names to values; reading a property that was never written yields
      [VUndefined].
    - The browser (image decoding, canvas encoders, object URLs) is a
      record of functions, [Host].
    - Exceptions and mutable state are threaded by the monad [M]. *)

From Stdlib Require Import ZArith QArith Qround Qabs Qpower String Ascii List Lia Bool.
From Stdlib Require Import Floats.SpecFloat.
From stdpp Require Import gmap strings list.

Close Scope Q_scope.
Local Open Scope string_scope.

(** ** Numbers *)

Class JsNumber (num : Type) := {
  lit : Q -> num;            (* a numeric literal, or an integer-valued property *)
  nadd : num -> num -> num;  (* a + b *)
  nmul : num -> num -> num;  (* a * b *)
  ndiv : num -> num -> num;  (* a / b *)
  nle : num -> num -> bool;  (* a <= b *)
  nlt : num -> num -> bool;  (* a < b; [a > b] is [nlt b a] *)
  toUint32 : num -> Z        (* the conversion to an [unsigned long] *)
}.

(** Exact arithmetic.  Division by zero is 0 here and an infinity or NaN in
    JavaScript; the script only divides by a dimension that is larger than
    another one. *)
#[export] Instance Q_number : JsNumber Q := {
  lit q := q;
  nadd := Qplus;
  nmul := Qmult;
  ndiv := Qdiv;
  nle := Qle_bool;
  nlt a b := negb (Qle_bool b a);
  toUint32 q := ((Z.quot (Qnum q) (Zpos (Qden q))) mod 2 ^ 32)%Z
}.

(** IEEE 754 binary64, round to nearest even. *)
Definition binary64 : Type := spec_float.

Definition b64_of_Z (z : Z) : binary64 := binary_normalize 53 1024 z 0 false.

(** The conversion of a double to an [unsigned long]: NaN, the zeros and
    the infinities give 0; a finite number is truncated towards zero and
    taken modulo 2^32. *)
Definition b64_toUint32 (x : binary64) : Z :=
  match x with
  | S754_finite s m e =>
      let magnitude :=
        if (0 <=? e)%Z then Z.shiftl (Zpos m) e else Z.shiftr (Zpos m) (- e) in
      ((if s then - magnitude else magnitude) mod 2 ^ 32)%Z
  | _ => 0
  end.

(** A decimal literal [n/d] denotes the double nearest to it, which the
    correctly rounded quotient of [n] and [d] is when both are below 2^53. *)
#[export] Instance binary64_number : JsNumber binary64 := {
  lit q := SFdiv 53 1024 (b64_of_Z (Qnum q)) (b64_of_Z (Zpos (Qden q)));
  nadd := SFadd 53 1024;
  nmul := SFmul 53 1024;
  ndiv := SFdiv 53 1024;
  nle := SFleb;
  nlt := SFltb;
  toUint32 := b64_toUint32
}.

(** ** Strings: the built-ins the script calls *)

Module JsString.

(** [s.split(sep)] for a one-character separator. *)
Fixpoint split (sep : ascii) (s : string) : list string :=
  match s with
  | EmptyString => [EmptyString]
  | String c rest =>
      if Ascii.eqb c sep then EmptyString :: split sep rest
      else match split sep rest with
           | [] => [String c EmptyString]
           | piece :: pieces => String c piece :: pieces
           end
  end.

(** [s.lastIndexOf(c)]: the index of the last [c], or -1. *)
Fixpoint lastIndexOf (c : ascii) (s : string) : Z :=
  match s with
  | EmptyString => (-1)%Z
  | String a rest =>
      let r := lastIndexOf c rest in
      if (0 <=? r)%Z then (r + 1)%Z
      else if Ascii.eqb a c then 0%Z else (-1)%Z
  end.

(** [s.substring(a, b)]: both indices are clamped to [0, length] and
    swapped when [a > b]. *)
Definition clamp (s : string) (i : Z) : nat :=
  Z.to_nat (Z.min (Z.max i 0) (Z.of_nat (String.length s))).

Definition substring (s : string) (a b : Z) : string :=
  let a' := clamp s a in
  let b' := clamp s b in
  String.substring (Nat.min a' b') (Nat.max a' b' - Nat.min a' b') s.

(** [s.toUpperCase()] on ASCII letters. *)
Definition upper (c : ascii) : ascii :=
  let n := nat_of_ascii c in
  if (97 <=? n)%nat && (n <=? 122)%nat then ascii_of_nat (n - 32) else c.

Fixpoint toUpperCase (s : string) : string :=
  match s with
  | EmptyString => EmptyString
  | String c rest => String (upper c) (toUpperCase rest)
  end.

(** ASCII lower case, as [new Blob] applies it to a type. *)
Definition lower (c : ascii) : ascii :=
  let n := nat_of_ascii c in
  if (65 <=? n)%nat && (n <=? 90)%nat then ascii_of_nat (n + 32) else c.

Fixpoint toLowerCase (s : string) : string :=
  match s with
  | EmptyString => EmptyString
  | String c rest => String (lower c) (toLowerCase rest)
  end.

(** [s.startsWith(p)]. *)
Definition startsWith (s p : string) : bool := String.prefix p s.

End JsString.

(** ** Values *)

Record Blob := { blob_bytes : list Byte.byte; blob_type : string }.

(** [blob.size] *)
Definition blob_size (b : Blob) : Z := Z.of_nat (length (blob_bytes b)).

(** The type [new Blob(parts, { type })] keeps: the text in lower case
    when all its characters are in the range U+0020 to U+007E, and the
    empty string otherwise. *)
Definition blobType (type : string) : string :=
  if forallb (fun c => let n := nat_of_ascii c in
                       (32 <=? n)%nat && (n <=? 126)%nat)
             (list_ascii_of_string type)
  then JsString.toLowerCase type
  else "".

(** The loop of [dataURLtoBlob], lines 162 to 164: [n] counts down from the
    length of [bstr], and every turn stores the char code at the new [n]
    in [u8arr].  A store outside a typed array is dropped, and the char
    code outside the string, [NaN], is stored as 0. *)
Fixpoint fillFrom (bstr : list Byte.byte) (n : nat) (u8arr : list Byte.byte)
  : list Byte.byte :=
  match n with
  | O => u8arr
  | S n' => fillFrom bstr n' (<[n' := default Byte.x00 (bstr !! n')]> u8arr)
  end.

(** [new Uint8Array(n)], filled with zeros, then the loop. *)
Definition u8arrOf (bstr : list Byte.byte) : list Byte.byte :=
  let n := length bstr in
  fillFrom bstr n (repeat Byte.x00 n).

(** A data URL, by what [dataURLtoBlob] reads in it:
    [data:<mime>;base64,<payload>] is [DataBase64 mime bytes] with [bytes]
    what [atob] makes of the payload; [DataEmpty] is ["data:,"], which
    [toDataURL] gives for a canvas without pixels. *)
Inductive DataURL :=
| DataEmpty
| DataBase64 (mime : string) (payload : list Byte.byte).

Inductive JsError :=
| TypeError (what : string)
| LoadError.

Inductive Exc (A : Type) :=
| Ok (a : A)
| Throw (e : JsError).
Arguments Ok {A} a.
Arguments Throw {A} e.

Record File := { name : string; size : Z; type : string }.

Record Image := { img_src : string; img_width : Z; img_height : Z }.

Section Values.
Context {num : Type}.

Inductive JSVal :=
| VUndefined
| VNull
| VStr (s : string)
| VUrl (d : DataURL)
| VNum (n : num)
| VBlob (b : Blob).

Inductive DrawOp :=
| FillRect (fillStyle : string) (x y w h : num)
| DrawImage (img : Image) (x y w h : num).

(** A canvas: its size in pixels, which [canvas.width] and [canvas.height]
    hold as [unsigned long], and what was drawn on it. *)
Record Canvas := { cv_width : Z; cv_height : Z; cv_ops : list DrawOp }.

(** One call of an encoder of the canvas. *)
Inductive EncodeCall :=
| CallToBlob (canvas : Canvas) (mimeType : string)
| CallToDataURL (canvas : Canvas) (mimeType : string) (quality : option num).

(** The browser. [decode] is [None] when [img.onerror] fires; [toBlob] is
    [None] when the callback receives [null]. *)
Record Host := {
  createObjectURL : File -> string;
  decode : File -> option Image;
  toDataURL : Canvas -> string -> option num -> DataURL;
  toBlob : Canvas -> string -> option Blob
}.

End Values.
Arguments JSVal : clear implicits.
Arguments DrawOp : clear implicits.
Arguments Canvas : clear implicits.
Arguments EncodeCall : clear implicits.
Arguments Host : clear implicits.

(** Object property read: [o.k]. *)
Definition get {num} (o : gmap string (JSVal num)) (k : string) : JSVal num :=
  default VUndefined (o !! k).

(** ** Exceptions and state *)

Definition M (S A : Type) : Type := S -> Exc A * S.

Definition ret {S A} (a : A) : M S A := fun s => (Ok a, s).

Definition bind {S A B} (c : M S A) (k : A -> M S B) : M S B :=
  fun s => match c s with
           | (Ok a, s') => k a s'
           | (Throw e, s') => (Throw e, s')
           end.

Definition lift {S A} (r : Exc A) : M S A := fun s => (r, s).

Definition modify {S} (f : S -> S) : M S unit := fun s => (Ok tt, f s).

Notation "x <- c ;; k" := (bind c (fun x => k))
  (at level 100, c at next level, right associativity).
Notation "c ;;; k" := (bind c (fun _ => k))
  (at level 100, right associativity).

(** [for (let i = 0; i < n; i++) body], the loop state threaded through. *)
Fixpoint for_loop {S A} (n : nat) (body : A -> M S A) (a : A) : M S A :=
  match n with
  | O => ret a
  | S n' => a' <- body a ;; for_loop n' body a'
  end.

(** ** The script *)

Section Script.
Context {num : Type} `{JsNumber num}.

Abbreviation Obj := (gmap string (JSVal num)).

(** A value in a condition: [if (v)], [!v], [v || d]. *)
Definition truthy (v : JSVal num) : bool :=
  match v with
  | VUndefined | VNull => false
  | VStr s => negb (String.eqb s "")
  | VUrl _ => true
  | VNum n => nlt (lit 0) n || nlt n (lit 0)
  | VBlob _ => true
  end.

(** A value inside a template literal. *)
Definition to_string (v : option string) : string :=
  match v with
  | Some s => s
  | None => "undefined"
  end.

(** *** Utility functions *)

(** [resizeDimensions(width, height, max)] *)
Definition resizeDimensions (width height max : num) : num * num :=
  if nlt max width || nlt max height then
    if nlt height width then
      let height' := nmul height (ndiv max width) in
      let width' := max in
      (width', height')
    else
      let width' := nmul width (ndiv max height) in
      let height' := max in
      (width', height')
  else (width, height).

(** [dataURLtoBlob(dataurl)]: on ["data:,"] the regular expression does
    not match and indexing [null] throws; otherwise the decoded payload
    is copied byte by byte into the blob. *)
Definition dataURLtoBlob (dataurl : DataURL) : Exc Blob :=
  match dataurl with
  | DataEmpty => Throw (TypeError "Cannot read properties of null (reading '1')")
  | DataBase64 mime bstr =>
      let u8arr := u8arrOf bstr in
      Ok {| blob_bytes := u8arr; blob_type := blobType mime |}
  end.

(** [mimeType.split('/')[1]], on a value that may not be a string: the
    script passes [blob.type], a string, and [result.mimeType].  Reading
    [split] off [undefined] or [null] throws, and calling the [split] that
    a number or a blob does not have throws as well; a data URL is never
    passed, and the model, which keeps no text of it, treats it alike. *)
Definition subtype_of (mimeType : JSVal num) : Exc (option string) :=
  match mimeType with
  | VStr s => Ok (JsString.split "/" s !! 1%nat)
  | _ => Throw (TypeError "Cannot read properties of undefined (reading 'split')")
  end.

(** [changeFileExtension(filename, mimeType)] *)
Definition changeFileExtension (filename : string) (mimeType : JSVal num)
  : Exc string :=
  match subtype_of mimeType with
  | Throw e => Throw e
  | Ok ext =>
      let baseName :=
        JsString.substring filename 0 (JsString.lastIndexOf "." filename) in
      Ok (baseName ++ "." ++ to_string ext)
  end.

(** *** The core compression algorithm *)

Variable host : Host num.

Abbreviation Log := (list (EncodeCall num)).

Definition call_toDataURL (canvas : Canvas num) (mimeType : string)
    (quality : option num) : M Log DataURL :=
  fun log => (Ok (toDataURL host canvas mimeType quality),
              (log ++ [CallToDataURL canvas mimeType quality])%list).

Definition call_toBlob (canvas : Canvas num) (mimeType : string)
  : M Log (JSVal num) :=
  fun log => (Ok (from_option VBlob VNull (toBlob host canvas mimeType)),
              (log ++ [CallToBlob canvas mimeType])%list).

(** [ctx.fillStyle = style; ctx.fillRect(x, y, w, h)] and
    [ctx.drawImage(img, x, y, w, h)]. *)
Definition fillRect (style : string) (x y w h : num) (c : Canvas num)
  : Canvas num :=
  {| cv_width := cv_width c; cv_height := cv_height c;
     cv_ops := (cv_ops c ++ [FillRect style x y w h])%list |}.

Definition drawImage (img : Image) (x y w h : num) (c : Canvas num)
  : Canvas num :=
  {| cv_width := cv_width c; cv_height := cv_height c;
     cv_ops := (cv_ops c ++ [DrawImage img x y w h])%list |}.

(** Lines 64 to 79: the canvas all encoders of one image read.  The
    assignments to [canvas.width] and [canvas.height] convert the resized
    dimensions to [unsigned long]; the drawing calls get them as they
    are. *)
Definition prepareCanvas (img : Image) (isPngConversion : bool)
  : Canvas num :=
  let MAX_DIMENSION := lit 1920 in
  let '(width, height) :=
    resizeDimensions (lit (inject_Z (img_width img)))
                     (lit (inject_Z (img_height img))) MAX_DIMENSION in
  let canvas :=
    {| cv_width := toUint32 width; cv_height := toUint32 height;
       cv_ops := [] |} in
  let canvas :=
    if isPngConversion
    then fillRect "#FFFFFF" (lit 0) (lit 0) width height canvas
    else canvas in
  drawImage img (lit 0) (lit 0) width height canvas.

(** [`(${prefix}${mimeType.split('/')[1].toUpperCase()})`] *)
Definition formatLabel (prefix mimeType : string) : Exc string :=
  match JsString.split "/" mimeType !! 1%nat with
  | Some sub => Ok ("(" ++ prefix ++ JsString.toUpperCase sub ++ ")")
  | None =>
      Throw (TypeError "Cannot read properties of undefined (reading 'toUpperCase')")
  end.

(** The variables of the search loop. *)
Record Search := {
  minQuality : num;
  maxQuality : num;
  bestResult : Obj
}.

(** The body of the loop, lines 94 to 103. *)
Definition searchStep (canvas : Canvas num) (mimeType : string)
    (targetSize : num) (s : Search) : M Log Search :=
  let quality := ndiv (nadd (minQuality s) (maxQuality s)) (lit 2) in
  src <- call_toDataURL canvas mimeType (Some quality) ;;
  blob <- lift (dataURLtoBlob src) ;;
  if nle (lit (inject_Z (blob_size blob))) targetSize
  then ret {| minQuality := quality;
              maxQuality := maxQuality s;
              bestResult := {[ "blob" := VBlob blob; "src" := VUrl src;
                               "quality" := VNum quality ]} |}
  else ret {| minQuality := minQuality s;
              maxQuality := quality;
              bestResult := bestResult s |}.

Definition searchInit : Search :=
  {| minQuality := lit 0;
     maxQuality := lit 1;
     bestResult := {[ "blob" := VNull; "src" := VStr ""; "quality" := VNum (lit 0) ]} |}.

(** [compressImage(img, mimeType, targetSize, isPngConversion)] *)
Definition compressImage (img : Image) (mimeType : string)
    (targetSize : num) (isPngConversion : bool) : M Log Obj :=
  let canvas := prepareCanvas img isPngConversion in
  if negb (String.eqb mimeType "image/jpeg")
     && negb (String.eqb mimeType "image/webp")
  then
    blob <- call_toBlob canvas mimeType ;;
    src <- call_toDataURL canvas mimeType None ;;
    format <- lift (formatLabel "Resized as " mimeType) ;;
    ret {[ "blob" := blob; "src" := VUrl src; "format" := VStr format ]}
  else
    s <- for_loop 7 (searchStep canvas mimeType targetSize) searchInit ;;
    best <- (if negb (truthy (get (bestResult s) "blob"))
             then
               src <- call_toDataURL canvas mimeType (Some (lit 0.1)) ;;
               blob <- lift (dataURLtoBlob src) ;;
               ret ({[ "src" := VUrl src; "blob" := VBlob blob;
                       "quality" := VNum (lit 0.1) ]} : Obj)
             else ret (bestResult s)) ;;
    format <- lift (formatLabel "as " mimeType) ;;
    ret (<["format" := VStr format]> best).

(** *** The page *)

(** A preview card, by the values its template interpolates; the sizes
    are kept in bytes, the template prints them in KB.  The template is
    assigned to [innerHTML]: the card shows a value as it is only when the
    value has none of the characters HTML reads as markup. *)
Record Card := {
  card_originalSrc : string;
  card_originalName : string;
  card_originalSize : Z;
  card_format : JSVal num;
  card_src : JSVal num;
  card_compressedSize : Z;
  card_download : string
}.

Record ZipEntry := { zip_name : string; zip_blob : JSVal num }.

(** The variables the closures share, and the two elements they write. *)
Record Page := {
  previewsContainer : list Card;
  compressedFilesForZip : list ZipEntry;
  filesToProcess : nat;
  filesProcessed : nat;
  downloadAllBtn_display : string
}.

(** [checkCompletion()] *)
Definition checkCompletion : M Page unit :=
  modify (fun p =>
    {| previewsContainer := previewsContainer p;
       compressedFilesForZip := compressedFilesForZip p;
       filesToProcess := filesToProcess p;
       filesProcessed := S (filesProcessed p);
       downloadAllBtn_display := downloadAllBtn_display p |}) ;;;
  modify (fun p =>
    if (filesProcessed p =? filesToProcess p)%nat
       && (0 <? length (compressedFilesForZip p))%nat
    then {| previewsContainer := previewsContainer p;
            compressedFilesForZip := compressedFilesForZip p;
            filesToProcess := filesToProcess p;
            filesProcessed := filesProcessed p;
            downloadAllBtn_display := "block" |}
    else p).

(** [compressedResult.blob], read as an object: [.type] and [.size] throw
    on [null] and [undefined]. *)
Definition as_blob (v : JSVal num) : Exc Blob :=
  match v with
  | VBlob b => Ok b
  | _ => Throw (TypeError "Cannot read properties of null (reading 'type')")
  end.

(** [displayPreviewCard(originalFile, originalSrc, compressedResult)] *)
Definition displayPreviewCard (originalFile : File) (originalSrc : string)
    (compressedResult : Obj) : M Page unit :=
  blob <- lift (as_blob (get compressedResult "blob")) ;;
  downloadFileName <-
    lift (changeFileExtension (name originalFile) (VStr (blob_type blob))) ;;
  let format := get compressedResult "format" in
  let card :=
    {| card_originalSrc := originalSrc;
       card_originalName := name originalFile;
       card_originalSize := size originalFile;
       card_format := if truthy format then format else VStr "";
       card_src := get compressedResult "src";
       card_compressedSize := blob_size blob;
       card_download := "compressed_" ++ downloadFileName |} in
  modify (fun p =>
    {| previewsContainer := (previewsContainer p ++ [card])%list;
       compressedFilesForZip := compressedFilesForZip p;
       filesToProcess := filesToProcess p;
       filesProcessed := filesProcessed p;
       downloadAllBtn_display := downloadAllBtn_display p |}).

(** [compressedFilesForZip.push(entry)] *)
Definition pushZip (entry : ZipEntry) : M Page unit :=
  modify (fun p =>
    {| previewsContainer := previewsContainer p;
       compressedFilesForZip := (compressedFilesForZip p ++ [entry])%list;
       filesToProcess := filesToProcess p;
       filesProcessed := filesProcessed p;
       downloadAllBtn_display := downloadAllBtn_display p |}).

(** Lines 41 to 51: the call of [compressImage] for one file. *)
Definition compressCall (file : File) (img : Image) : M Log Obj :=
  let targetSize := nmul (lit (inject_Z (size file))) (lit 0.10) in
  if String.eqb (type file) "image/png"
  then compressImage img "image/jpeg" targetSize true
  else compressImage img (type file) targetSize false.

(** [processImage(file)].  The page is read and written only after the
    last [await], in one turn of the event loop, so the whole function is
    one step on the page; a rejected promise is the [Throw] it returns. *)
Definition processImage (file : File) : M Page unit :=
  let originalSrc := createObjectURL host file in
  img <- lift (match decode host file with
               | Some img => Ok img
               | None => Throw LoadError
               end) ;;
  result <- lift (fst (compressCall file img [])) ;;
  displayPreviewCard file originalSrc result ;;;
  zipName <- lift (changeFileExtension (name file) (get result "mimeType")) ;;
  pushZip {| zip_name := zipName; zip_blob := get result "blob" |} ;;;
  checkCompletion.

(** The [change] listener of [imageInput], up to the calls of
    [processImage]: the page it leaves and the files whose pipelines it
    starts.  [files] is [None] for a null file list. *)
Definition imageInput_change (files : option (list File)) (p : Page)
  : Page * list File :=
  match files with
  | None => (p, [])
  | Some files =>
      if (length files =? 0)%nat then (p, [])
      else
        let imageFiles :=
          List.filter (fun file => JsString.startsWith (type file) "image/") files in
        let p' :=
          {| previewsContainer := [];
             compressedFilesForZip := [];
             filesToProcess := length imageFiles;
             filesProcessed := 0;
             downloadAllBtn_display := "none" |} in
        if (filesToProcess p' =? 0)%nat then (p', []) else (p', imageFiles)
  end.

(** Pipelines settling one after the other; nothing awaits their promises,
    so a rejection is dropped. *)
Definition settle (p : Page) (file : File) : Page := snd (processImage file p).

Definition settleAll (order : list File) (p : Page) : Page :=
  fold_left settle order p.

End Script.
Arguments Card : clear implicits.
Arguments ZipEntry : clear implicits.
Arguments Page : clear implicits.
Arguments Search : clear implicits.

(** * The vocabulary of the statements *)

(** [s.includes(c)] for one character; the script does not call it, the
    statements about file names and mime types do. *)
Fixpoint contains (c : ascii) (s : string) : bool :=
  match s with
  | EmptyString => false
  | String a rest => Ascii.eqb a c || contains c rest
  end.

(** A file is an image for the [change] listener. *)
Definition isImage (file : File) : bool :=
  JsString.startsWith (type file) "image/".

(** The formats the search runs on. *)
Definition searchable (mimeType : string) : bool :=
  String.eqb mimeType "image/jpeg" || String.eqb mimeType "image/webp".

(** The encode of a canvas at a quality, and the call that makes it. *)
Definition encodeAt {num} (host : Host num) (canvas : Canvas num)
    (mimeType : string) (q : num) : DataURL :=
  toDataURL host canvas mimeType (Some q).

Definition callAt {num} (canvas : Canvas num) (mimeType : string) (q : num)
  : EncodeCall num :=
  CallToDataURL canvas mimeType (Some q).

(** An encode call is on a given canvas, for a given format. *)
Definition callOn {num} (canvas : Canvas num) (mimeType : string)
    (c : EncodeCall num) : Prop :=
  match c with
  | CallToBlob canvas' mimeType' => canvas' = canvas /\ mimeType' = mimeType
  | CallToDataURL canvas' mimeType' _ => canvas' = canvas /\ mimeType' = mimeType
  end.

(** The pipeline of a file fails: the image does not decode, an encode
    throws, or the encoder hands back no blob. *)
Definition pipelineFails {num} `{JsNumber num} (host : Host num) (file : File)
  : bool :=
  match decode host file with
  | None => true
  | Some img =>
      match fst (compressCall host file img []) with
      | Throw _ => true
      | Ok result =>
          match get result "blob" with
          | VBlob _ => false
          | _ => true
          end
      end
  end.

(** The end of [processImage], lines 54 to 59, once the entry is built:
    the push, then [checkCompletion]; and a run of such ends. *)
Definition recordOutcome {num} (p : Page num) (entry : ZipEntry num) : Page num :=
  snd ((pushZip entry ;;; checkCompletion) p).

Definition recordOutcomes {num} (entries : list (ZipEntry num)) (p : Page num)
  : Page num :=
  fold_left recordOutcome entries p.

(** Within a batch: no more files processed than expected, one outcome per
    processed file, and the button shown exactly when all files are
    processed and there is an outcome. *)
Definition batchInvariant {num} (p : Page num) : Prop :=
  (filesProcessed p <= filesToProcess p)%nat
  /\ length (compressedFilesForZip p) = filesProcessed p
  /\ (downloadAllBtn_display p = "block"
      <-> filesProcessed p = filesToProcess p /\ compressedFilesForZip p <> []).

(** ** The quality search as the design document words it

    Low and high bounds, the best encode so far, and the qualities tested:
    each step encodes at the midpoint; an encode within the budget becomes
    the best and raises the low bound, another one lowers the high bound. *)

Section Bisection.
Context {num : Type} `{JsNumber num}.
Variable encode : num -> DataURL.
Variable budget : num.

(** The blob of a data URL, for every data URL. *)
Definition blobOf (d : DataURL) : Blob :=
  match d with
  | DataBase64 mime bstr => {| blob_bytes := bstr; blob_type := blobType mime |}
  | DataEmpty => {| blob_bytes := []; blob_type := "" |}
  end.

(** The encode at quality [q] is within the budget. *)
Definition withinBudget (q : num) : bool :=
  nle (lit (inject_Z (blob_size (blobOf (encode q))))) budget.

Record Bisection := {
  low : num;
  high : num;
  best : option (DataURL * num);
  tested : list num
}.

Definition bisectionStep (b : Bisection) : Bisection :=
  let mid := ndiv (nadd (low b) (high b)) (lit 2) in
  if withinBudget mid
  then {| low := mid; high := high b; best := Some (encode mid, mid);
          tested := (tested b ++ [mid])%list |}
  else {| low := low b; high := mid; best := best b;
          tested := (tested b ++ [mid])%list |}.

Fixpoint bisectionFrom (n : nat) (b : Bisection) : Bisection :=
  match n with
  | O => b
  | S n' => bisectionFrom n' (bisectionStep b)
  end.

Definition bisectionInit : Bisection :=
  {| low := lit 0; high := lit 1; best := None; tested := [] |}.

Definition bisection (n : nat) : Bisection := bisectionFrom n bisectionInit.

(** What the best encode of a bisection is: the encode at the low bound,
    tested and within the budget; without one, no tested quality is. *)
Definition bestSound (b : Bisection) : Prop :=
  match best b with
  | Some (src, q) =>
      q = low b /\ In q (tested b) /\ src = encode q
      /\ withinBudget q = true
  | None => forall q, In q (tested b) -> withinBudget q = false
  end.

End Bisection.
Arguments Bisection : clear implicits.

(** How a state of the bisection reads as the variables of the loop of
    [compressImage]. *)
Definition bestObject {num} `{JsNumber num} (best : option (DataURL * num))
  : gmap string (JSVal num) :=
  match best with
  | Some (src, quality) =>
      {[ "blob" := VBlob (blobOf src); "src" := VUrl src;
         "quality" := VNum quality ]}
  | None => bestResult searchInit
  end.

Definition toSearch {num} `{JsNumber num} (b : Bisection num) : Search num :=
  {| minQuality := low b; maxQuality := high b;
     bestResult := bestObject (best b) |}.

(** The fallback result of [compressImage], line 109. *)
Definition fallbackObject {num} `{JsNumber num} (src : DataURL)
  : gmap string (JSVal num) :=
  {[ "src" := VUrl src; "blob" := VBlob (blobOf src);
     "quality" := VNum (lit 0.1) ]}.

(** ** The bisection along given answers

    The bounds of the bisection depend on the encoder only through the
    answers to "is this encode within the budget?". [walk] follows a list
    of answers; [gridOrdered] checks, for every list of [n] answers, that no
    quality answered yes lies above the best one. *)

Section Grid.
Context {num : Type} `{JsNumber num}.

Record Walk := {
  w_low : num;
  w_high : num;
  w_best : option num;
  w_seen : list (num * bool)
}.

Definition walkStep (answer : bool) (w : Walk) : Walk :=
  let mid := ndiv (nadd (w_low w) (w_high w)) (lit 2) in
  if answer
  then {| w_low := mid; w_high := w_high w; w_best := Some mid;
          w_seen := (w_seen w ++ [(mid, true)])%list |}
  else {| w_low := w_low w; w_high := mid; w_best := w_best w;
          w_seen := (w_seen w ++ [(mid, false)])%list |}.

Fixpoint walk (answers : list bool) (w : Walk) : Walk :=
  match answers with
  | [] => w
  | answer :: rest => walk rest (walkStep answer w)
  end.

Definition walkInit : Walk :=
  {| w_low := lit 0; w_high := lit 1; w_best := None; w_seen := [] |}.

Definition bestIsHighest (w : Walk) : bool :=
  match w_best w with
  | Some q => forallb (fun seen => negb (snd seen) || negb (nlt q (fst seen))) (w_seen w)
  | None => true
  end.

Fixpoint answerLists (n : nat) : list (list bool) :=
  match n with
  | O => [[]]
  | S n' => flat_map (fun l => [true :: l; false :: l]) (answerLists n')
  end.

Definition gridOrdered (n : nat) : bool :=
  forallb (fun answers => bestIsHighest (walk answers walkInit)) (answerLists n).

(** What the search of [compressImage] needs of the numbers: the seven
    midpoints are ordered as their answers say, and 0.1 is not below
    itself. *)
Definition searchOrdered : bool :=
  gridOrdered 7 && negb (nlt (lit 0.1) (lit 0.1)).

End Grid.
Arguments Walk : clear implicits.
Arguments searchOrdered num {_}.

(** A bisection and a walk that are at the same point. *)
Definition sameWalk {num} `{JsNumber num} (encode : num -> DataURL)
    (budget : num) (b : Bisection num) (w : Walk num) : Prop :=
  low b = w_low w /\ high b = w_high w
  /\ option_map snd (best b) = w_best w
  /\ tested b = map fst (w_seen w)
  /\ List.Forall (fun seen => withinBudget encode budget (fst seen) = snd seen)
                 (w_seen w).

(** ** A browser to run the script on

    Its JPEG and WebP encoders give 40 bytes up to quality 0.3 and 400
    bytes above it; every other encode gives 900 bytes.  It decodes every
    file but [broken.png], to an image of 3000 by 2000 pixels. *)

Definition zeros (n : nat) : list Byte.byte := repeat Byte.x00 n.

Definition demoHost : Host binary64 := {|
  createObjectURL file := "blob:" ++ name file;
  decode file :=
    if String.eqb (name file) "broken.png" then None
    else Some {| img_src := "blob:" ++ name file;
                 img_width := 3000; img_height := 2000 |};
  toDataURL canvas mimeType quality :=
    match quality with
    | Some q => DataBase64 mimeType (zeros (if nle q (lit 0.3) then 40 else 400))
    | None => DataBase64 mimeType (zeros 900)
    end;
  toBlob canvas mimeType :=
    Some {| blob_bytes := zeros 900; blob_type := mimeType |}
|}.

Definition demoImage : Image :=
  {| img_src := "blob:photo.png"; img_width := 3000; img_height := 2000 |}.

(** A page after a finished batch of one, and some files. *)
Definition demoPage : Page binary64 :=
  {| previewsContainer :=
       [ {| card_originalSrc := "blob:a.jpg"; card_originalName := "a.jpg";
            card_originalSize := 4000; card_format := VStr "(as JPEG)";
            card_src := VUrl (DataBase64 "image/jpeg" (zeros 40));
            card_compressedSize := 40; card_download := "compressed_a.jpeg" |} ];
     compressedFilesForZip :=
       [ {| zip_name := "a.jpeg";
            zip_blob := VBlob {| blob_bytes := zeros 40; blob_type := "image/jpeg" |} |} ];
     filesToProcess := 1;
     filesProcessed := 1;
     downloadAllBtn_display := "block" |}.

Definition emptyPage : Page binary64 :=
  {| previewsContainer := []; compressedFilesForZip := [];
     filesToProcess := 0; filesProcessed := 0;
     downloadAllBtn_display := "none" |}.

Definition photoPng : File :=
  {| name := "photo.png"; size := 2000000; type := "image/png" |}.
Definition brokenPng : File :=
  {| name := "broken.png"; size := 5000; type := "image/png" |}.
Definition holidayJpg : File :=
  {| name := "holiday.jpg"; size := 4000; type := "image/jpeg" |}.
Definition iconBmp : File :=
  {| name := "icon.bmp"; size := 500; type := "image/bmp" |}.
Definition notesTxt : File :=
  {| name := "notes.txt"; size := 120; type := "text/plain" |}.

Definition demoEntries : list (ZipEntry binary64) :=
  [ {| zip_name := "photo.jpeg";
       zip_blob := VBlob {| blob_bytes := zeros 40; blob_type := "image/jpeg" |} |};
    {| zip_name := "holiday.jpeg";
       zip_blob := VBlob {| blob_bytes := zeros 40; blob_type := "image/jpeg" |} |} ].

(** * More of the script *)

(** The blob a pipeline hands to [displayPreviewCard], when it gets that
    far. *)
Definition resultBlob {num} `{JsNumber num} (host : Host num) (file : File)
  : option Blob :=
  match decode host file with
  | None => None
  | Some img =>
      match fst (compressCall host file img []) with
      | Throw _ => None
      | Ok result =>
          match get result "blob" with
          | VBlob blob => Some blob
          | _ => None
          end
      end
  end.

(** The page a selection resets to. *)
Definition resetPage {num} (files : list File) : Page num :=
  {| previewsContainer := [];
     compressedFilesForZip := [];
     filesToProcess := length (List.filter isImage files);
     filesProcessed := 0;
     downloadAllBtn_display := "none" |}.




(** A browser that has no data for a canvas without pixels: when the width
    or the height of the canvas is 0, [toDataURL] is ["data:,"] and [toBlob]
    hands back [null]; otherwise it is [demoHost]. *)
Definition pixelHost : Host binary64 := {|
  createObjectURL := createObjectURL demoHost;
  decode := decode demoHost;
  toDataURL canvas mimeType quality :=
    if (cv_width canvas =? 0)%Z || (cv_height canvas =? 0)%Z then DataEmpty
    else toDataURL demoHost canvas mimeType quality;
  toBlob canvas mimeType :=
    if (cv_width canvas =? 0)%Z || (cv_height canvas =? 0)%Z then None
    else toBlob demoHost canvas mimeType
|}.

(** An image of 1 by 2000 pixels. *)
Definition sliverImage : Image :=
  {| img_src := "blob:sliver.jpg"; img_width := 1; img_height := 2000 |}.

(** A browser whose canvas has no pixels: every [toDataURL] is ["data:,"]
    and [toBlob] hands back [null]. *)
Definition blankHost : Host binary64 := {|
  createObjectURL file := "blob:" ++ name file;
  decode file := Some {| img_src := "blob:" ++ name file;
                         img_width := 0; img_height := 0 |};
  toDataURL canvas mimeType quality := DataEmpty;
  toBlob canvas mimeType := None
|}.

(** ** The grid of the search in binary64 *)

(** Two doubles are the same datum. *)
Definition b64_same (a b : binary64) : bool :=
  match a, b with
  | S754_zero s, S754_zero s' => Bool.eqb s s'
  | S754_infinity s, S754_infinity s' => Bool.eqb s s'
  | S754_nan, S754_nan => true
  | S754_finite s m e, S754_finite s' m' e' =>
      Bool.eqb s s' && Pos.eqb m m' && Z.eqb e e'
  | _, _ => false
  end.

(** The doubles 1/128, 2/128, ..., 127/128. *)
Definition gridQualities : list binary64 :=
  map (fun k => lit (Z.of_nat k # 128)) (seq 1 127).

(** A walk has only seen qualities of the grid, and its bounds are 1/128
    apart. *)
Definition onGrid (w : Walk binary64) : bool :=
  forallb (fun seen => existsb (b64_same (fst seen)) gridQualities) (w_seen w)
  && b64_same (w_high w) (nadd (w_low w) (lit (1 # 128))).



(** What the run [processImage] starts for a file does, for a format and a
    flattening: every encode reads the canvas prepared with that flattening,
    in that format; the first encode is the first midpoint of the search,
    or [toBlob] for a format without search; and, when the encodes return
    data, the second midpoint is chosen by comparing the first encode with
    a tenth of the size of the file. *)
Definition encodesAs {num} `{JsNumber num} (host : Host num) (file : File)
    (img : Image) (mimeType : string) (flatten : bool) : Prop :=
  let targetSize := nmul (lit (inject_Z (size file))) (lit 0.10) in
  let canvas := prepareCanvas img flatten in
  let run := compressCall host file img [] in
  let first := ndiv (nadd (lit 0) (lit 1)) (lit 2) in
  List.Forall (callOn canvas mimeType) (snd run)
  /\ hd_error (snd run)
     = Some (if searchable mimeType then callAt canvas mimeType first
             else CallToBlob canvas mimeType)
  /\ (searchable mimeType = true ->
      (forall q, toDataURL host canvas mimeType (Some q) <> DataEmpty) ->
      nth_error (snd run) 1
      = Some (callAt canvas mimeType
                (if withinBudget (encodeAt host canvas mimeType) targetSize first
                 then ndiv (nadd first (lit 1)) (lit 2)
                 else ndiv (nadd (lit 0) first) (lit 2)))).

(** The error a pipeline ends in: the load error when the image does not
    decode, the error [compressImage] throws, the error of reading
    [blob.type] when the encoder handed back no blob, and otherwise the
    error of line 55, where [result.mimeType] is [undefined]. *)
Definition pipelineError {num} `{JsNumber num} (host : Host num) (file : File)
  : JsError :=
  match decode host file with
  | None => LoadError
  | Some img =>
      match fst (compressCall host file img []) with
      | Throw e => e
      | Ok result =>
          match get result "blob" with
          | VBlob _ =>
              TypeError "Cannot read properties of undefined (reading 'split')"
          | _ => TypeError "Cannot read properties of null (reading 'type')"
          end
      end
  end.

(** The page once [photo.png] was selected and its pipeline has settled.
    The page before the selection does not matter: the listener resets
    it. *)
Definition photoPage : Page binary64 :=
  settleAll demoHost [photoPng]
    (fst (imageInput_change (Some [photoPng]) emptyPage)).


(** ** Rounding in binary64

    What the statements on the resizer in binary64 are written with. *)

(** A shift record has no round or sticky bit set. *)
Definition shr_clean (mrs : shr_record) : Prop :=
  shr_r mrs = false /\ shr_s mrs = false.

(** [b] is [a] shifted right by [k] bits: the mantissa is divided, and
    the bits are clear when nothing was shifted out. *)
Definition shiftedBy (k : Z) (a b : shr_record) : Prop :=
  (0 <= shr_m a)%Z ->
  (0 <= shr_m b)%Z
  /\ shr_m b = (shr_m a / 2 ^ k)%Z
  /\ (shr_clean a -> (shr_m a mod 2 ^ k = 0)%Z -> shr_clean b).

(** The double after 1920: 1920.0000000000002. *)
Definition after1920 : binary64 := S754_finite false 8444249301319681 (-42).

(** A check holds on every integer from 1 to [n]. *)
Definition checkedUpTo (check : Z -> bool) (n : positive) : bool :=
  snd (Pos.iter (fun st : Z * bool => ((fst st + 1)%Z, snd st && check (fst st)))
                (1%Z, true) n).

(** The double of an integer side is the integer itself: a mantissa of 53
    bits and an exponent that give that value. *)
Definition sideExact (z : Z) : bool :=
  match b64_of_Z z with
  | S754_finite false m e =>
      (2 ^ 52 <=? Zpos m)%Z && (Zpos m <? 2 ^ 53)%Z
      && (-52 <=? e)%Z && (e <=? 0)%Z
      && (Zpos m =? z * 2 ^ (- e))%Z
  | _ => false
  end.

(** The scale 1920 / b of a longer side [b], as a double: a positive
    double of 53 bits that is at most 1; [b] times it is at most the
    double after 1920, and within 2^-42 of 1920. *)
Definition scaleBounded (b : Z) : bool :=
  match SFdiv 53 1024 (b64_of_Z 1920) (b64_of_Z b) with
  | S754_finite false m e =>
      (2 ^ 52 <=? Zpos m)%Z && (Zpos m <? 2 ^ 53)%Z
      && (-70 <=? e)%Z && (e <=? -53)%Z
      && (Zpos m <=? 2 ^ (- e))%Z
      && (b * Zpos m <=? 8444249301319681 * 2 ^ (- 42 - e))%Z
      && (Z.abs (b * Zpos m - 1920 * 2 ^ (- e)) <=? 2 ^ (- e - 42))%Z
  | _ => false
  end.


(** * Properties *)

(** ** Strings *)

Lemma lastIndexOf_absent c s :
  contains c s = false -> JsString.lastIndexOf c s = (-1)%Z.
Proof.
  induction s as [|a s IH]; simpl; [reflexivity|].
  intros [Ha Hs]%orb_false_iff. rewrite (IH Hs), Ha. reflexivity.
Qed.

Lemma lastIndexOf_last c base suffix :
  contains c suffix = false ->
  JsString.lastIndexOf c (base ++ String c suffix)
  = Z.of_nat (String.length base).
Proof.
  intros Hs. induction base as [|a base IH]; simpl.
  - rewrite (lastIndexOf_absent _ _ Hs). simpl. now rewrite Ascii.eqb_refl.
  - rewrite IH. destruct (0 <=? Z.of_nat (String.length base))%Z eqn:E; lia.
Qed.

Lemma substring_prefix base rest :
  String.substring 0 (String.length base) (base ++ rest) = base.
Proof.
  induction base as [|a base IH]; simpl.
  - now destruct rest.
  - now rewrite IH.
Qed.

Lemma js_substring_none s : JsString.substring s 0 (-1) = "".
Proof.
  unfold JsString.substring, JsString.clamp.
  replace (Z.to_nat (Z.min (Z.max 0 0) (Z.of_nat (String.length s)))) with 0%nat by lia.
  replace (Z.to_nat (Z.min (Z.max (-1) 0) (Z.of_nat (String.length s)))) with 0%nat by lia.
  simpl. now destruct s.
Qed.

Lemma js_substring_prefix base rest :
  JsString.substring (base ++ rest) 0 (Z.of_nat (String.length base)) = base.
Proof.
  unfold JsString.substring, JsString.clamp.
  assert (Hlen : String.length (base ++ rest)
                 = (String.length base + String.length rest)%nat).
  { clear. induction base; simpl; [reflexivity | now f_equal]. }
  rewrite Hlen.
  replace (Z.to_nat (Z.min (Z.max 0 0) _)) with 0%nat by lia.
  replace (Z.to_nat (Z.min (Z.max (Z.of_nat (String.length base)) 0) _))
    with (String.length base) by lia.
  rewrite Nat.min_0_l, Nat.max_0_l, Nat.sub_0_r.
  apply substring_prefix.
Qed.

Lemma split_absent c s : contains c s = false -> JsString.split c s = [s].
Proof.
  induction s as [|a s IH]; simpl; [reflexivity|].
  intros [Ha Hs]%orb_false_iff. now rewrite Ha, (IH Hs).
Qed.

Lemma split_two c t sub :
  contains c t = false -> contains c sub = false ->
  JsString.split c (t ++ String c sub) = [t; sub].
Proof.
  intros Ht Hs. induction t as [|a t IH]; simpl.
  - now rewrite Ascii.eqb_refl, (split_absent _ _ Hs).
  - simpl in Ht. apply orb_false_iff in Ht as [Ha Ht].
    now rewrite Ha, (IH Ht).
Qed.

(** C10. A file name without a dot yields a dot followed by the subtype of
    the mime type, the name itself being lost; a file name with a dot keeps
    what precedes its last dot and gets the subtype after it. *)
Theorem changeFileExtension_names (num : Type) (filename t sub : string) :
  contains "/" t = false -> contains "/" sub = false ->
  (contains "." filename = false ->
   @changeFileExtension num filename (VStr (t ++ "/" ++ sub))
   = Ok ("." ++ sub))
  /\ (forall base suffix,
       filename = base ++ "." ++ suffix -> contains "." suffix = false ->
       @changeFileExtension num filename (VStr (t ++ "/" ++ sub))
       = Ok (base ++ "." ++ sub)).
Proof.
  intros Ht Hsub. unfold changeFileExtension, subtype_of.
  change (t ++ "/" ++ sub) with (t ++ String "/" sub).
  rewrite (split_two _ _ _ Ht Hsub). simpl. split.
  - intros Hdot. rewrite (lastIndexOf_absent _ _ Hdot), js_substring_none.
    reflexivity.
  - intros base suffix -> Hdot.
    change (base ++ "." ++ suffix) with (base ++ String "." suffix).
    rewrite (lastIndexOf_last _ _ _ Hdot), js_substring_prefix.
    reflexivity.
Qed.

Lemma changeFileExtension_names_witness :
  @changeFileExtension Q "README" (VStr "image/jpeg") = Ok ".jpeg"
  /\ @changeFileExtension Q "holiday.2019.png" (VStr "image/jpeg")
     = Ok "holiday.2019.jpeg".
Proof.
  destruct (changeFileExtension_names Q "README" "image" "jpeg"
              eq_refl eq_refl) as [H1 _].
  destruct (changeFileExtension_names Q "holiday.2019.png" "image" "jpeg"
              eq_refl eq_refl) as [_ H2].
  split.
  - exact (H1 eq_refl).
  - exact (H2 "holiday.2019" "png" eq_refl eq_refl).
Defined.

(** ** The dimension resizer *)

(** In any arithmetic, dimensions within the bound are returned as they
    are. *)
Lemma resizeDimensions_within {num} `{JsNumber num} (width height max : num) :
  nlt max width = false -> nlt max height = false ->
  resizeDimensions width height max = (width, height).
Proof. intros Hw Hh. unfold resizeDimensions. now rewrite Hw, Hh. Qed.

Lemma resizeDimensions_within_witness :
  resizeDimensions (lit 800 : binary64) (lit 600) (lit 1920)
  = (lit 800, lit 600).
Proof.
  apply (resizeDimensions_within (lit 800 : binary64) (lit 600) (lit 1920));
    vm_compute; reflexivity.
Defined.

(** In any arithmetic, when a dimension is over the bound the longer side
    becomes the bound itself; only the other side is computed. *)
Lemma resizeDimensions_longer_side {num} `{JsNumber num} (width height max : num) :
  nlt max width || nlt max height = true ->
  resizeDimensions width height max
  = if nlt height width
    then (max, nmul height (ndiv max width))
    else (nmul width (ndiv max height), max).
Proof. intros Hc. unfold resizeDimensions. rewrite Hc. now destruct (nlt height width). Qed.

Lemma Q_nlt_true (a b : Q) : nlt a b = true <-> (a < b)%Q.
Proof.
  simpl. rewrite negb_true_iff. split.
  - intros E. apply Qnot_le_lt. intros Hle.
    apply Qle_bool_iff in Hle. congruence.
  - intros Hlt. destruct (Qle_bool b a) eqn:E; [|reflexivity].
    apply Qle_bool_iff in E. exfalso. exact (Qlt_not_le _ _ Hlt E).
Qed.

Lemma Q_nlt_false (a b : Q) : nlt a b = false <-> (b <= a)%Q.
Proof.
  simpl. rewrite negb_false_iff. apply Qle_bool_iff.
Qed.

Lemma Q_scale_le (a b max : Q) :
  (0 < b)%Q -> (0 < max)%Q -> (a <= b)%Q -> (a * (max / b) <= max)%Q.
Proof.
  intros Hb Hm Hab.
  assert (Hk : (0 <= max / b)%Q).
  { apply Qlt_le_weak, Qlt_shift_div_l; [assumption|]. now rewrite Qmult_0_l. }
  assert (Hbk : (b * (max / b) == max)%Q).
  { field. intros E. rewrite E in Hb. exact (Qlt_irrefl _ Hb). }
  rewrite <- Hbk at 2. now apply Qmult_le_compat_r.
Qed.

(** In exact arithmetic both dimensions are within the bound, the
    ratio of width to height is kept, and dimensions already within the
    bound are returned unchanged. *)
Theorem resizeDimensions_exact (width height max : Q) :
  (0 < width)%Q -> (0 < height)%Q -> (0 < max)%Q ->
  let r := resizeDimensions width height max in
  (fst r <= max)%Q /\ (snd r <= max)%Q
  /\ (fst r / snd r == width / height)%Q
  /\ ((width <= max)%Q -> (height <= max)%Q -> r = (width, height)).
Proof.
  intros Hw Hh Hm r.
  assert (Hw0 : ~ (width == 0)%Q) by (intros E; rewrite E in Hw; exact (Qlt_irrefl _ Hw)).
  assert (Hh0 : ~ (height == 0)%Q) by (intros E; rewrite E in Hh; exact (Qlt_irrefl _ Hh)).
  assert (Hm0 : ~ (max == 0)%Q) by (intros E; rewrite E in Hm; exact (Qlt_irrefl _ Hm)).
  destruct (nlt max width || nlt max height) eqn:Hc.
  - subst r. rewrite (resizeDimensions_longer_side _ _ _ Hc).
    destruct (nlt height width) eqn:Hhw.
    + apply Q_nlt_true in Hhw. cbn [fst snd nmul ndiv Q_number].
      repeat split.
      * apply Qle_refl.
      * apply Q_scale_le; auto using Qlt_le_weak.
      * field. repeat split; assumption.
      * intros Hwm Hhm. exfalso. apply orb_true_iff in Hc as [Hc|Hc];
          apply Q_nlt_true in Hc.
        -- exact (Qlt_not_le _ _ Hc Hwm).
        -- exact (Qlt_not_le _ _ Hc Hhm).
    + apply Q_nlt_false in Hhw. cbn [fst snd nmul ndiv Q_number].
      repeat split.
      * apply Q_scale_le; auto.
      * apply Qle_refl.
      * field. repeat split; assumption.
      * intros Hwm Hhm. exfalso. apply orb_true_iff in Hc as [Hc|Hc];
          apply Q_nlt_true in Hc.
        -- exact (Qlt_not_le _ _ Hc Hwm).
        -- exact (Qlt_not_le _ _ Hc Hhm).
  - apply orb_false_iff in Hc as [Hc1 Hc2].
    subst r. rewrite (resizeDimensions_within _ _ _ Hc1 Hc2).
    apply Q_nlt_false in Hc1, Hc2. cbn [fst snd].
    repeat split; auto; try apply Qeq_refl.
Qed.

Lemma resizeDimensions_exact_witness :
  let r := resizeDimensions (3000 : Q) 2000%Q 1920%Q in
  (fst r <= 1920)%Q /\ (snd r <= 1920)%Q
  /\ (fst r / snd r == 3000 / 2000)%Q
  /\ ((3000 <= 1920)%Q -> (2000 <= 1920)%Q -> r = (3000%Q, 2000%Q)).
Proof.
  apply (resizeDimensions_exact 3000%Q 2000%Q 1920%Q); reflexivity.
Defined.


(** ** Rounding in binary64 *)

Lemma shiftedBy_shr_1 (a : shr_record) : shiftedBy 1 a (shr_1 a).
Proof.
  destruct a as [m r s]. unfold shiftedBy, shr_clean. cbn [shr_m shr_r shr_s].
  intros Hm. change (2 ^ 1)%Z with 2%Z.
  destruct m as [|[p|p|]|p]; try lia; cbn [shr_1 shr_m shr_r shr_s].
  - split; [lia|]. split; [reflexivity|]. intros [-> ->] _. split; reflexivity.
  - split; [lia|]. split.
    + rewrite Pos2Z.inj_xI. apply Z.div_unique with 1%Z; lia.
    + intros _ Hmod. rewrite Pos2Z.inj_xI in Hmod.
      rewrite Z.add_comm, Z.mul_comm, Z.mod_add in Hmod by lia. discriminate Hmod.
  - split; [lia|]. split.
    + rewrite Pos2Z.inj_xO. apply Z.div_unique with 0%Z; lia.
    + intros [-> ->] _. split; reflexivity.
  - split; [lia|]. split; [reflexivity|].
    intros _ Hmod. discriminate Hmod.
Qed.

Lemma shiftedBy_trans (k k' : Z) (a b c : shr_record) :
  (0 <= k)%Z -> (0 <= k')%Z ->
  shiftedBy k a b -> shiftedBy k' b c -> shiftedBy (k + k') a c.
Proof.
  intros Hk Hk' Hab Hbc Ha.
  destruct (Hab Ha) as (Hb & Hmb & Hcb).
  destruct (Hbc Hb) as (Hc & Hmc & Hcc).
  assert (Hpow : (0 < 2 ^ k)%Z) by (apply Z.pow_pos_nonneg; lia).
  assert (Hpow' : (0 < 2 ^ k')%Z) by (apply Z.pow_pos_nonneg; lia).
  split; [exact Hc|]. split.
  - rewrite Hmc, Hmb, Z.pow_add_r, Z.div_div by lia. reflexivity.
  - intros Hclean Hmod. rewrite Z.pow_add_r in Hmod by lia.
    apply Z.mod_divide in Hmod; [|lia]. destruct Hmod as [q Hq].
    apply Hcc.
    + apply Hcb; [exact Hclean|]. apply Z.mod_divide; [lia|].
      exists (q * 2 ^ k')%Z. lia.
    + rewrite Hmb. apply Z.mod_divide; [lia|]. exists q.
      rewrite Hq. replace (q * (2 ^ k * 2 ^ k'))%Z with (q * 2 ^ k' * 2 ^ k)%Z by lia.
      now rewrite Z.div_mul by lia.
Qed.

Lemma shiftedBy_iter_pos (p : positive) (a : shr_record) :
  shiftedBy (Zpos p) a (SpecFloat.iter_pos shr_1 p a).
Proof.
  revert a. induction p as [p IH|p IH|]; intros a; cbn [SpecFloat.iter_pos].
  - replace (Zpos p~1) with (1 + (Zpos p + Zpos p))%Z by lia.
    apply (shiftedBy_trans _ _ _ (shr_1 a)); try lia; [apply shiftedBy_shr_1|].
    apply (shiftedBy_trans _ _ _ (SpecFloat.iter_pos shr_1 p (shr_1 a))); try lia; apply IH.
  - replace (Zpos p~0) with (Zpos p + Zpos p)%Z by lia.
    apply (shiftedBy_trans _ _ _ (SpecFloat.iter_pos shr_1 p a)); try lia; apply IH.
  - apply shiftedBy_shr_1.
Qed.

Lemma digits2_pos_bounds (p : positive) :
  (2 ^ (Zpos (digits2_pos p) - 1) <= Zpos p < 2 ^ Zpos (digits2_pos p))%Z.
Proof.
  induction p as [p IH|p IH|]; cbn [digits2_pos]; [| |cbn; lia];
    rewrite Pos2Z.inj_succ;
    replace (Z.succ (Zpos (digits2_pos p)) - 1)%Z
      with (Z.succ (Zpos (digits2_pos p) - 1))%Z by lia;
    rewrite !Z.pow_succ_r by lia; lia.
Qed.

Lemma digits2_pos_unique (p : positive) (d : Z) :
  (2 ^ (d - 1) <= Zpos p < 2 ^ d)%Z -> Zpos (digits2_pos p) = d.
Proof.
  intros [Hlow Hhigh]. pose proof (digits2_pos_bounds p) as [Hlow' Hhigh'].
  assert (Hd : (0 < d)%Z).
  { destruct (Z.ltb_spec 0 d) as [|Hneg]; [assumption|].
    rewrite Z.pow_neg_r in Hlow by lia.
    destruct (Z.eq_dec d 0%Z) as [->|]; [cbn in Hhigh; lia|].
    rewrite Z.pow_neg_r in Hhigh by lia. lia. }
  destruct (Z.lt_trichotomy (Zpos (digits2_pos p)) d) as [Hlt|[Heq|Hgt]];
    [|exact Heq|].
  - assert (2 ^ Zpos (digits2_pos p) <= 2 ^ (d - 1))%Z
      by (apply Z.pow_le_mono_r; lia). lia.
  - assert (2 ^ d <= 2 ^ (Zpos (digits2_pos p) - 1))%Z
      by (apply Z.pow_le_mono_r; lia). lia.
Qed.

Lemma round_nearest_even_bounds (mrs : shr_record) :
  let m := round_nearest_even (shr_m mrs) (loc_of_shr_record mrs) in
  (shr_m mrs <= m <= shr_m mrs + 1)%Z /\ (shr_clean mrs -> m = shr_m mrs).
Proof.
  destruct mrs as [m [|] [|]]; cbn; unfold shr_clean; cbn;
    try destruct (Z.even m); split; try lia; try reflexivity;
    intros [? ?]; discriminate.
Qed.

(** A mantissa of 53 bits is kept, and 2^53 becomes 2^52 one exponent up. *)
Lemma shr_fexp_normal (m e : Z) :
  (2 ^ 52 <= m <= 2 ^ 53)%Z -> (-1074 <= e)%Z ->
  shr_fexp 53 1024 m e loc_Exact
  = if (m =? 2 ^ 53)%Z
    then ({| shr_m := 2 ^ 52; shr_r := false; shr_s := false |}, (e + 1)%Z)
    else ({| shr_m := m; shr_r := false; shr_s := false |}, e).
Proof.
  intros Hm He. destruct m as [|p|p]; try lia.
  unfold shr_fexp, fexp, emin. cbn [Zdigits2 shr_record_of_loc].
  destruct (Z.eqb_spec (Zpos p) (2 ^ 53)) as [Heq|Hne].
  - injection Heq as ->. change (Zpos (digits2_pos _)) with 54%Z.
    rewrite Z.max_l by lia.
    replace (54 + e - 53 - e)%Z with 1%Z by lia. reflexivity.
  - rewrite (digits2_pos_unique p 53) by (change (53 - 1)%Z with 52%Z; lia).
    rewrite Z.max_l by lia.
    replace (53 + e - 53 - e)%Z with 0%Z by lia. reflexivity.
Qed.

(** The product of two doubles, or any positive integer of more than 53
    bits times a power of two, rounded to a double in the normal range:
    the mantissa is the integer shifted down to 53 bits, kept or
    incremented, and kept when the shift is exact. *)
Lemma binary_round_aux_normal (P : positive) (E : Z) :
  let d := Zpos (digits2_pos P) in
  let e1 := (d + E - 53)%Z in
  (53 < d)%Z -> (-1074 <= e1)%Z ->
  exists m2 : positive,
    (Zpos P / 2 ^ (d - 53) <= Zpos m2 <= Zpos P / 2 ^ (d - 53) + 1)%Z
    /\ ((Zpos P mod 2 ^ (d - 53) = 0)%Z -> Zpos m2 = (Zpos P / 2 ^ (d - 53))%Z)
    /\ (2 ^ 52 <= Zpos m2 <= 2 ^ 53)%Z
    /\ binary_round_aux 53 1024 false (Zpos P) E loc_Exact
       = if (Zpos m2 =? 2 ^ 53)%Z
         then if (e1 + 1 <=? 971)%Z
              then S754_finite false 4503599627370496 (e1 + 1)
              else S754_infinity false
         else if (e1 <=? 971)%Z then S754_finite false m2 e1
              else S754_infinity false.
Proof.
  intros d e1 Hd He1.
  pose proof (digits2_pos_bounds P) as [Hlow Hhigh]. fold d in Hlow, Hhigh.
  destruct (d - 53)%Z as [|pn|pn] eqn:Hn; try lia.
  assert (Hfirst : shr_fexp 53 1024 (Zpos P) E loc_Exact
                   = (SpecFloat.iter_pos shr_1 pn
                        {| shr_m := Zpos P; shr_r := false; shr_s := false |},
                      (E + Zpos pn)%Z)).
  { unfold shr_fexp, fexp, emin. cbn [Zdigits2 shr_record_of_loc]. fold d.
    rewrite Z.max_l by lia.
    replace (d + E - 53 - E)%Z with (Zpos pn) by lia. reflexivity. }
  destruct (shiftedBy_iter_pos pn
              {| shr_m := Zpos P; shr_r := false; shr_s := false |})
    as (Hpos & Hm1 & Hclean); [cbn; lia|].
  cbn [shr_m] in Hm1, Hclean.
  set (r1 := SpecFloat.iter_pos shr_1 pn _) in *.
  pose proof (round_nearest_even_bounds r1) as [Hm2 Hexact]. cbv zeta in *.
  set (m2 := round_nearest_even (shr_m r1) (loc_of_shr_record r1)) in *.
  assert (Hpow : (2 ^ d = 2 ^ 53 * 2 ^ Zpos pn)%Z).
  { rewrite <- Z.pow_add_r by lia. f_equal. lia. }
  assert (Hpow' : (2 ^ (d - 1) = 2 ^ 52 * 2 ^ Zpos pn)%Z).
  { rewrite <- Z.pow_add_r by lia. f_equal. lia. }
  assert (Hpn : (0 < 2 ^ Zpos pn)%Z) by (apply Z.pow_pos_nonneg; lia).
  assert (Hm1r : (2 ^ 52 <= shr_m r1 < 2 ^ 53)%Z).
  { rewrite Hm1. split.
    - apply Z.div_le_lower_bound; lia.
    - apply Z.div_lt_upper_bound; lia. }
  destruct m2 as [|q|q] eqn:Hq; try lia.
  exists q. rewrite <- Hm1. split; [lia|]. split.
  { intros Hmod. apply Hexact, Hclean; [split; reflexivity | exact Hmod]. }
  split; [lia|].
  unfold binary_round_aux. rewrite Hfirst. fold m2. rewrite Hq.
  replace (E + Zpos pn)%Z with e1 by (unfold e1; lia).
  rewrite shr_fexp_normal by lia.
  destruct (Z.eqb_spec (Zpos q) (2 ^ 53)); reflexivity.
Qed.

Lemma SFleb_finite (m m' : positive) (e e' : Z) :
  (e < e' \/ (e = e' /\ Zpos m <= Zpos m'))%Z ->
  SFleb (S754_finite false m e) (S754_finite false m' e') = true.
Proof.
  intros Hle. unfold SFleb, SFcompare.
  change (Pos.compare_cont Eq m m') with (Pos.compare m m').
  destruct (Z.compare_spec e e'); [|reflexivity|lia].
  destruct (Pos.compare_spec m m'); [reflexivity|reflexivity|lia].
Qed.

(** Rounding does not cross a double: a product that is at most a double
    is at most that double once rounded. *)
Lemma binary_round_aux_le (P mB : positive) (E eB : Z) :
  let d := Zpos (digits2_pos P) in
  (53 < d)%Z -> (-1074 <= d + E - 53)%Z -> (E <= eB)%Z -> (eB <= 971)%Z ->
  (2 ^ 52 <= Zpos mB < 2 ^ 53)%Z ->
  (Zpos P <= Zpos mB * 2 ^ (eB - E))%Z ->
  SFleb (binary_round_aux 53 1024 false (Zpos P) E loc_Exact)
        (S754_finite false mB eB) = true.
Proof.
  intros d Hd He1 HE HeB HmB Hle.
  destruct (binary_round_aux_normal P E Hd He1) as (m2 & Hm2 & Hexact & Hr & ->).
  fold d in Hm2, Hexact.
  pose proof (digits2_pos_bounds P) as [Hlow Hhigh]. fold d in Hlow, Hhigh.
  assert (Ht : (0 < 2 ^ (eB - E))%Z) by (apply Z.pow_pos_nonneg; lia).
  assert (Hn : (d - 53 <= eB - E)%Z).
  { assert (Hlt : (2 ^ (d - 1) < 2 ^ (53 + (eB - E)))%Z).
    { rewrite Z.pow_add_r by lia. nia. }
    apply Z.pow_lt_mono_r_iff in Hlt; lia. }
  assert (Hpn : (0 < 2 ^ (d - 53))%Z) by (apply Z.pow_pos_nonneg; lia).
  assert (Hfin : forall e, (e <= eB)%Z -> (e <=? 971)%Z = true)
    by (intros e He; apply Z.leb_le; lia).
  cbv zeta.
  destruct (Z.eq_dec (d - 53)%Z (eB - E)%Z) as [Heq|Hne].
  - rewrite <- Heq in Hle.
    assert (Hm2B : (Zpos m2 <= Zpos mB)%Z).
    { destruct (Z.eq_dec (Zpos P mod 2 ^ (d - 53))%Z 0%Z) as [Hmod|Hmod].
      - rewrite (Hexact Hmod). apply Z.div_le_upper_bound; lia.
      - assert (Zpos P / 2 ^ (d - 53) < Zpos mB)%Z; [|lia].
        apply Z.div_lt_upper_bound; [lia|].
        assert (Zpos P <> 2 ^ (d - 53) * Zpos mB)%Z; [|lia].
        intros Heq'. apply Hmod. rewrite Heq', Z.mul_comm.
        apply Z.mod_mul. lia. }
    replace (Zpos m2 =? 2 ^ 53)%Z with false by (symmetry; apply Z.eqb_neq; lia).
    rewrite Hfin by (fold d; lia).
    apply SFleb_finite. right. split; [fold d; lia | exact Hm2B].
  - destruct (Z.eqb_spec (Zpos m2) (2 ^ 53)%Z) as [E53|_].
    + rewrite Hfin by (fold d; lia).
      apply SFleb_finite. fold d.
      destruct (Z.eq_dec (d + E - 53 + 1)%Z eB); [right|left; lia].
      split; [assumption|]. change (Zpos 4503599627370496) with (2 ^ 52)%Z. lia.
    + rewrite Hfin by (fold d; lia).
      apply SFleb_finite. left. fold d. lia.
Qed.

(** The rounded product as a double: its mantissa has 53 bits and its
    value is within one unit in the last place of the product. *)
Lemma binary_round_aux_value (P : positive) (E : Z) :
  let d := Zpos (digits2_pos P) in
  (53 < d)%Z -> (-1074 <= d + E - 53)%Z -> (d + E - 52 <= 971)%Z ->
  exists (m : positive) (e : Z),
    binary_round_aux 53 1024 false (Zpos P) E loc_Exact = S754_finite false m e
    /\ (2 ^ 52 <= Zpos m < 2 ^ 53)%Z
    /\ (d + E - 53 <= e <= d + E - 52)%Z
    /\ (Zpos m * 2 ^ (e - E) - 2 ^ (e - E) <= Zpos P
        <= Zpos m * 2 ^ (e - E) + 2 ^ (e - E))%Z.
Proof.
  intros d Hd He1 Hmax.
  destruct (binary_round_aux_normal P E Hd He1) as (m2 & Hm2 & _ & Hr & ->).
  fold d in Hm2. cbv zeta.
  assert (Hpn : (0 < 2 ^ (d - 53))%Z) by (apply Z.pow_pos_nonneg; lia).
  pose proof (Z.div_mod (Zpos P) (2 ^ (d - 53))%Z ltac:(lia)) as Hdm.
  pose proof (Z.mod_pos_bound (Zpos P) (2 ^ (d - 53))%Z Hpn) as Hmod.
  set (fl := (Zpos P / 2 ^ (d - 53))%Z) in *.
  set (rem := (Zpos P mod 2 ^ (d - 53))%Z) in *.
  destruct (Z.eqb_spec (Zpos m2) (2 ^ 53)%Z) as [E53|Hne].
  - fold d. replace (d + E - 53 + 1 <=? 971)%Z with true
      by (symmetry; apply Z.leb_le; lia).
    exists 4503599627370496%positive, (d + E - 53 + 1)%Z.
    split; [reflexivity|]. split; [split; [reflexivity|reflexivity]|].
    split; [lia|].
    replace (d + E - 53 + 1 - E)%Z with (Z.succ (d - 53)) by lia.
    rewrite Z.pow_succ_r by lia.
    change (Zpos 4503599627370496) with (2 ^ 52)%Z.
    change (2 ^ 53)%Z with (2 * 2 ^ 52)%Z in E53. nia.
  - fold d. replace (d + E - 53 <=? 971)%Z with true
      by (symmetry; apply Z.leb_le; lia).
    exists m2, (d + E - 53)%Z.
    split; [reflexivity|]. split; [lia|]. split; [lia|].
    replace (d + E - 53 - E)%Z with (d - 53)%Z by lia. nia.
Qed.

(** ** The resizer in binary64 *)

(** Dividing a double by 1 gives it back: an integer literal is the double
    of the integer. *)
Lemma SFdiv_one (m : positive) (e : Z) :
  (2 ^ 52 <= Zpos m < 2 ^ 53)%Z -> (-1000 <= e <= 900)%Z ->
  SFdiv 53 1024 (S754_finite false m e) (b64_of_Z 1) = S754_finite false m e.
Proof.
  intros Hm He. change (b64_of_Z 1) with (S754_finite false 4503599627370496 (-52)).
  unfold SFdiv, SFdiv_core_binary. cbn [xorb Zdigits2].
  rewrite (digits2_pos_unique m 53) by (change (53 - 1)%Z with 52%Z; lia).
  change (Zpos (digits2_pos 4503599627370496)) with 53%Z.
  unfold fexp, emin.
  replace (Z.min (Z.max (53 + e - (53 + -52) - 53) (3 - 1024 - 53)) (e - -52))
    with (e - 1)%Z by lia.
  replace (e - -52 - (e - 1))%Z with 53%Z by lia.
  assert (Hdiv : Z.div_eucl (Z.shiftl (Zpos m) 53) 4503599627370496
                 = (2 * Zpos m, 0)%Z).
  { rewrite (surjective_pairing (Z.div_eucl _ _)).
    change (fst (Z.div_eucl ?a ?b)) with (Z.div a b).
    change (snd (Z.div_eucl ?a ?b)) with (Z.modulo a b).
    rewrite Z.shiftl_mul_pow2 by lia.
    replace (Zpos m * 2 ^ 53)%Z with (2 * Zpos m * 4503599627370496)%Z by lia.
    rewrite Z.div_mul, Z.mod_mul by lia. reflexivity. }
  rewrite Hdiv. cbn [new_location Z.even new_location_even Z.eqb].
  change (2 * Zpos m)%Z with (Zpos m~0).
  destruct (binary_round_aux_normal m~0 (e - 1)) as (m2 & _ & Hexact & _ & ->).
  - rewrite (digits2_pos_unique m~0 54); lia.
  - rewrite (digits2_pos_unique m~0 54); lia.
  - rewrite (digits2_pos_unique m~0 54) in * by lia.
    change (2 ^ (54 - 53))%Z with 2%Z in Hexact.
    assert (Hm2 : Zpos m2 = Zpos m).
    { rewrite Hexact.
      - rewrite Pos2Z.inj_xO, Z.mul_comm. apply Z.div_mul. lia.
      - rewrite Pos2Z.inj_xO, Z.mul_comm. apply Z.mod_mul. lia. }
    injection Hm2 as ->.
    replace (Zpos m =? 2 ^ 53)%Z with false by (symmetry; apply Z.eqb_neq; lia).
    replace (54 + (e - 1) - 53)%Z with e by lia.
    replace (e <=? 971)%Z with true by (symmetry; apply Z.leb_le; lia).
    reflexivity.
Qed.

Lemma checkedUpTo_spec (check : Z -> bool) (n : positive) :
  checkedUpTo check n = true ->
  forall z, (1 <= z <= Zpos n)%Z -> check z = true.
Proof.
  unfold checkedUpTo.
  set (step := fun st : Z * bool => ((fst st + 1)%Z, snd st && check (fst st))).
  assert (Hinv : forall k,
             fst (Pos.iter step (1%Z, true) k) = (1 + Zpos k)%Z
             /\ (snd (Pos.iter step (1%Z, true) k) = true ->
                 forall z, (1 <= z <= Zpos k)%Z -> check z = true)).
  { induction k as [|k [IHfst IHsnd]] using Pos.peano_ind.
    - cbn. split; [reflexivity|]. intros Hc z Hz.
      assert (z = 1%Z) as -> by lia. exact Hc.
    - rewrite Pos.iter_succ. unfold step at 1 3. cbn [fst snd].
      rewrite IHfst. split; [lia|].
      intros [Hok Hc]%andb_true_iff z Hz.
      destruct (Z.eq_dec z (1 + Zpos k)%Z) as [->|Hne]; [exact Hc|].
      apply IHsnd; [exact Hok | lia]. }
  intros Hc. exact (proj2 (Hinv n) Hc).
Qed.

(** Checked on each side from 1 to 65535. *)
Lemma sides_exact : checkedUpTo sideExact 65535 = true.
Proof. vm_compute. reflexivity. Qed.

(** Checked on each side from 1921 to 65535. *)
Lemma sides_scaleBounded :
  checkedUpTo (fun b => (b <=? 1920)%Z || scaleBounded b) 65535 = true.
Proof. vm_cast_no_check (eq_refl true). Qed.

Lemma lit_side (z : Z) :
  (1 <= z <= 65535)%Z ->
  exists (m : positive) (e : Z),
    (lit (inject_Z z) : binary64) = S754_finite false m e
    /\ (2 ^ 52 <= Zpos m < 2 ^ 53)%Z /\ (-52 <= e <= 0)%Z
    /\ Zpos m = (z * 2 ^ (- e))%Z.
Proof.
  intros Hz. pose proof (checkedUpTo_spec _ _ sides_exact z Hz) as Hside.
  unfold sideExact in Hside. unfold lit, binary64_number.
  cbn [Qnum Qden inject_Z].
  destruct (b64_of_Z z) as [| | |[|] m e]; try discriminate Hside.
  apply andb_true_iff in Hside as [Hside Hval%Z.eqb_eq].
  apply andb_true_iff in Hside as [Hside He0%Z.leb_le].
  apply andb_true_iff in Hside as [Hside He%Z.leb_le].
  apply andb_true_iff in Hside as [Hlow%Z.leb_le Hhigh%Z.ltb_lt].
  exists m, e. rewrite SFdiv_one by lia. repeat split; auto.
Qed.

Lemma lit_1920 : (lit 1920 : binary64) = b64_of_Z 1920.
Proof. vm_compute. reflexivity. Qed.

Lemma scale_side (b : Z) :
  (1920 < b <= 65535)%Z ->
  exists (m : positive) (e : Z),
    (ndiv (lit 1920) (lit (inject_Z b)) : binary64) = S754_finite false m e
    /\ (2 ^ 52 <= Zpos m < 2 ^ 53)%Z /\ (-70 <= e <= -53)%Z
    /\ (Zpos m <= 2 ^ (- e))%Z
    /\ (b * Zpos m <= 8444249301319681 * 2 ^ (- 42 - e))%Z
    /\ (Z.abs (b * Zpos m - 1920 * 2 ^ (- e)) <= 2 ^ (- e - 42))%Z.
Proof.
  intros Hb.
  pose proof (checkedUpTo_spec _ _ sides_scaleBounded b ltac:(lia)) as Hscale.
  cbv beta in Hscale.
  replace (b <=? 1920)%Z with false in Hscale by (symmetry; apply Z.leb_gt; lia).
  cbn [orb] in Hscale. unfold scaleBounded in Hscale.
  assert (Hlit : (lit (inject_Z b) : binary64) = b64_of_Z b).
  { destruct (lit_side b ltac:(lia)) as (m & e & Hm & Hr & He & _).
    rewrite Hm. unfold lit, binary64_number in Hm. cbn [Qnum Qden inject_Z] in Hm.
    destruct (b64_of_Z b) as [| | |s m' e'] eqn:Hb64.
    all: pose proof (checkedUpTo_spec _ _ sides_exact b ltac:(lia)) as Hside.
    all: unfold sideExact in Hside; rewrite Hb64 in Hside; try discriminate Hside.
    destruct s; [discriminate Hside|].
    apply andb_true_iff in Hside as [Hside _].
    apply andb_true_iff in Hside as [Hside He0%Z.leb_le].
    apply andb_true_iff in Hside as [Hside He'%Z.leb_le].
    apply andb_true_iff in Hside as [Hlow%Z.leb_le Hhigh%Z.ltb_lt].
    rewrite SFdiv_one in Hm by lia. now symmetry. }
  change (@ndiv binary64 _ ?a ?b) with (SFdiv 53 1024 a b).
  rewrite lit_1920, Hlit.
  destruct (SFdiv 53 1024 _ _) as [| | |[|] m e]; try discriminate Hscale.
  apply andb_true_iff in Hscale as [Hscale Hacc%Z.leb_le].
  apply andb_true_iff in Hscale as [Hscale Hnext%Z.leb_le].
  apply andb_true_iff in Hscale as [Hscale Hone%Z.leb_le].
  apply andb_true_iff in Hscale as [Hscale He0%Z.leb_le].
  apply andb_true_iff in Hscale as [Hscale He%Z.leb_le].
  apply andb_true_iff in Hscale as [Hlow%Z.leb_le Hhigh%Z.ltb_lt].
  exists m, e. repeat split; auto.
Qed.

(** Doubles of integers compare as the integers do. *)
Lemma SFltb_integers (m m' : positive) (e e' z z' : Z) :
  (2 ^ 52 <= Zpos m < 2 ^ 53)%Z -> (2 ^ 52 <= Zpos m' < 2 ^ 53)%Z ->
  (e <= 0)%Z -> (e' <= 0)%Z ->
  Zpos m = (z * 2 ^ (- e))%Z -> Zpos m' = (z' * 2 ^ (- e'))%Z ->
  SFltb (S754_finite false m e) (S754_finite false m' e') = (z <? z')%Z.
Proof.
  intros Hm Hm' He He' Hz Hz'. unfold SFltb, SFcompare.
  change (Pos.compare_cont Eq m m') with (Pos.compare m m').
  assert (Hp : (0 < 2 ^ (- e))%Z) by (apply Z.pow_pos_nonneg; lia).
  assert (Hp' : (0 < 2 ^ (- e'))%Z) by (apply Z.pow_pos_nonneg; lia).
  destruct (Z.compare_spec e e') as [->|Hlt|Hgt].
  - destruct (Pos.compare_spec m m') as [Heq|Hlt|Hgt]; symmetry.
    + apply Z.ltb_ge. subst m'. nia.
    + apply Z.ltb_lt. nia.
    + apply Z.ltb_ge. nia.
  - symmetry. apply Z.ltb_lt.
    assert (Hsplit : (2 ^ (- e) = 2 ^ (- e') * 2 ^ (e' - e))%Z).
    { rewrite <- Z.pow_add_r by lia. f_equal. lia. }
    assert (Htwo : (2 <= 2 ^ (e' - e))%Z).
    { change 2%Z with (2 ^ 1)%Z at 1. apply Z.pow_le_mono_r; lia. }
    change (2 ^ 53)%Z with (2 * 2 ^ 52)%Z in *. nia.
  - symmetry. apply Z.ltb_ge.
    assert (Hsplit : (2 ^ (- e') = 2 ^ (- e) * 2 ^ (e - e'))%Z).
    { rewrite <- Z.pow_add_r by lia. f_equal. lia. }
    assert (Htwo : (2 <= 2 ^ (e - e'))%Z).
    { change 2%Z with (2 ^ 1)%Z at 1. apply Z.pow_le_mono_r; lia. }
    change (2 ^ 53)%Z with (2 * 2 ^ 52)%Z in *. nia.
Qed.

Lemma nlt_sides (a b : Z) :
  (1 <= a <= 65535)%Z -> (1 <= b <= 65535)%Z ->
  nlt (lit (inject_Z a) : binary64) (lit (inject_Z b)) = (a <? b)%Z.
Proof.
  intros Ha Hb.
  destruct (lit_side a Ha) as (m & e & -> & Hm & He & Hz).
  destruct (lit_side b Hb) as (m' & e' & -> & Hm' & He' & Hz').
  apply SFltb_integers; auto; lia.
Qed.

Lemma SFleb_finite_exponent (m m' : positive) (e e' : Z) :
  SFleb (S754_finite false m e) (S754_finite false m' e') = true -> (e <= e')%Z.
Proof.
  unfold SFleb, SFcompare. destruct (Z.compare_spec e e'); [lia|lia|discriminate].
Qed.

Lemma digits2_pos_product (m m' : positive) :
  (2 ^ 52 <= Zpos m < 2 ^ 53)%Z -> (2 ^ 52 <= Zpos m' < 2 ^ 53)%Z ->
  (105 <= Zpos (digits2_pos (m * m')) <= 106)%Z.
Proof.
  intros Hm Hm'. pose proof (digits2_pos_bounds (m * m')) as [Hlow Hhigh].
  rewrite Pos2Z.inj_mul in Hlow, Hhigh.
  assert (Hp : (2 ^ 104 <= Zpos m * Zpos m' < 2 ^ 106)%Z).
  { change (2 ^ 104)%Z with (2 ^ 52 * 2 ^ 52)%Z.
    change (2 ^ 106)%Z with (2 ^ 53 * 2 ^ 53)%Z. nia. }
  split.
  - destruct (Z.le_gt_cases 105 (Zpos (digits2_pos (m * m')))) as [|Hsmall];
      [assumption|].
    assert (2 ^ Zpos (digits2_pos (m * m')) <= 2 ^ 104)%Z
      by (apply Z.pow_le_mono_r; lia). lia.
  - destruct (Z.le_gt_cases (Zpos (digits2_pos (m * m'))) 106) as [|Hbig];
      [assumption|].
    assert (2 ^ 106 <= 2 ^ (Zpos (digits2_pos (m * m')) - 1))%Z
      by (apply Z.pow_le_mono_r; lia). lia.
Qed.

(** A side [a] scaled by 1920 / b, for a longer side [b] over 1920: the
    double computed is at most the double after 1920 and at most [a], and
    its value is within 2^-41 of a * 1920 / b. *)
Lemma scaled_side (a b : Z) :
  (1 <= a <= b)%Z -> (1920 < b <= 65535)%Z ->
  exists (m : positive) (e : Z),
    (nmul (lit (inject_Z a)) (ndiv (lit 1920) (lit (inject_Z b))) : binary64)
    = S754_finite false m e
    /\ (e <= -42)%Z
    /\ nle (S754_finite false m e) after1920 = true
    /\ nle (S754_finite false m e) (lit (inject_Z a) : binary64) = true
    /\ (Z.abs (Zpos m * b - a * 1920 * 2 ^ (- e)) <= b * 2 ^ (- e - 41))%Z.
Proof.
  intros Ha Hb.
  destruct (lit_side a ltac:(lia)) as (ma & ea & -> & Hma & Hea & Hva).
  destruct (scale_side b Hb) as (mk & ek & -> & Hmk & Hek & Hone & Hnext & Hacc).
  change (@nmul binary64 _ ?x ?y) with (SFmul 53 1024 x y).
  change (@nle binary64 _) with SFleb.
  cbn [SFmul xorb].
  pose proof (digits2_pos_product ma mk Hma Hmk) as Hd.
  assert (HA : (0 < 2 ^ (- ea))%Z) by (apply Z.pow_pos_nonneg; lia).
  assert (HK : (0 < 2 ^ (- ek))%Z) by (apply Z.pow_pos_nonneg; lia).
  assert (Hnext' : SFleb (binary_round_aux 53 1024 false (Zpos (ma * mk))
                            (ea + ek) loc_Exact) after1920 = true).
  { apply binary_round_aux_le; try lia.
    replace (-42 - (ea + ek))%Z with ((- 42 - ek) + (- ea))%Z by lia.
    rewrite Z.pow_add_r, Pos2Z.inj_mul by lia.
    assert (0 < 2 ^ (-42 - ek))%Z by (apply Z.pow_pos_nonneg; lia). nia. }
  assert (Hshrink : SFleb (binary_round_aux 53 1024 false (Zpos (ma * mk))
                             (ea + ek) loc_Exact)
                          (S754_finite false ma ea) = true).
  { apply binary_round_aux_le; try lia.
    replace (ea - (ea + ek))%Z with (- ek)%Z by lia.
    rewrite Pos2Z.inj_mul. nia. }
  destruct (binary_round_aux_value (ma * mk) (ea + ek)) as (m & e & Hval & Hm & He & Herr);
    try lia.
  rewrite Hval in *. exists m, e. split; [reflexivity|].
  pose proof (SFleb_finite_exponent _ _ _ _ Hnext') as He42.
  split; [exact He42|]. split; [exact Hnext'|]. split; [exact Hshrink|].
  rewrite Pos2Z.inj_mul in Herr.
  set (N := (2 ^ (e - (ea + ek)))%Z) in *.
  set (Y := (2 ^ (- e - 42))%Z).
  set (K42 := (2 ^ (- ek - 42))%Z) in *.
  assert (HN : (0 < N)%Z) by (apply Z.pow_pos_nonneg; lia).
  assert (HY : (1 <= Y)%Z) by (apply Z.lt_pred_le, Z.pow_pos_nonneg; lia).
  assert (HX : (2 ^ (- e) = Y * 2 ^ 42)%Z).
  { unfold Y. rewrite <- Z.pow_add_r by lia. f_equal. lia. }
  assert (HY2 : (2 ^ (- e - 41) = 2 * Y)%Z).
  { unfold Y. replace (- e - 41)%Z with (Z.succ (- e - 42)) by lia.
    apply Z.pow_succ_r. lia. }
  assert (HK2 : (2 ^ (- ek) = K42 * 2 ^ 42)%Z).
  { unfold K42. rewrite <- Z.pow_add_r by lia. f_equal. lia. }
  assert (HAK : (2 ^ (- ea) * K42 = Y * N)%Z).
  { unfold K42, Y, N. rewrite <- !Z.pow_add_r by lia. f_equal. lia. }
  rewrite HX, HY2. rewrite HK2 in Hacc.
  apply Z.abs_le. apply Z.abs_le in Hacc.
  rewrite Hva in Herr.
  change (2 ^ 42)%Z with 4398046511104%Z in *.
  set (A := (2 ^ (- ea))%Z) in *.
  destruct Hacc as [Hacc1 Hacc2]. destruct Herr as [Herr1 Herr2].
  clear Hnext Hone Hnext' Hshrink Hval Hva HX HY2 HK2 Hd Hma Hmk Hm.
  assert (HaA : (0 <= a * A)%Z) by (apply Z.mul_nonneg_nonneg; lia).
  assert (Hb1 : (a * A * (b * Zpos mk)
                 <= a * A * (1920 * (K42 * 4398046511104) + K42))%Z)
    by (apply Z.mul_le_mono_nonneg_l; [exact HaA | lia]).
  assert (Hb2 : (a * A * (1920 * (K42 * 4398046511104) - K42)
                 <= a * A * (b * Zpos mk))%Z)
    by (apply Z.mul_le_mono_nonneg_l; [exact HaA | lia]).
  assert (Hc1 : (b * (Zpos m * N - N) <= b * (a * A * Zpos mk))%Z)
    by (apply Z.mul_le_mono_nonneg_l; lia).
  assert (Hc2 : (b * (a * A * Zpos mk) <= b * (Zpos m * N + N))%Z)
    by (apply Z.mul_le_mono_nonneg_l; lia).
  assert (HaK : (a * A * K42 = a * (Y * N))%Z) by (rewrite <- HAK; ring).
  assert (HYN : (0 <= Y * N)%Z) by (apply Z.mul_nonneg_nonneg; lia).
  assert (HaY : (a * (Y * N) <= b * (Y * N))%Z)
    by (apply Z.mul_le_mono_nonneg_r; lia).
  assert (HNY : (1 * N <= Y * N)%Z) by (apply Z.mul_le_mono_nonneg_r; lia).
  assert (HbN : (b * (1 * N) <= b * (Y * N))%Z)
    by (apply Z.mul_le_mono_nonneg_l; lia).
  split; apply (Z.mul_le_mono_pos_r _ _ N HN); lia.
Qed.




Lemma nlt_1920 (b : Z) :
  (1 <= b <= 65535)%Z ->
  nlt (lit 1920 : binary64) (lit (inject_Z b)) = (1920 <? b)%Z.
Proof. intros Hb. exact (nlt_sides 1920 b ltac:(lia) Hb). Qed.



Lemma SFltb_SFleb (x y : binary64) : SFltb x y = true -> SFleb x y = true.
Proof. unfold SFltb, SFleb. now destruct (SFcompare x y) as [[| |]|]. Qed.

Lemma SFleb_refl_finite (m : positive) (e : Z) :
  SFleb (S754_finite false m e) (S754_finite false m e) = true.
Proof. apply SFleb_finite. right. split; lia. Qed.

(** In binary64 the resizer never enlarges a side: for integer sides up to
    65535 and the bound 1920, the width returned is at most the width
    given and the height returned at most the height given. *)
Theorem resizeDimensions_never_enlarges (w h : Z) :
  (1 <= w <= 65535)%Z -> (1 <= h <= 65535)%Z ->
  let width : binary64 := lit (inject_Z w) in
  let height : binary64 := lit (inject_Z h) in
  let r := resizeDimensions width height (lit 1920) in
  nle (fst r) width = true /\ nle (snd r) height = true.
Proof.
  intros Hw Hh width height r. subst width height r.
  unfold resizeDimensions. rewrite !nlt_1920, nlt_sides by lia.
  destruct (Z.ltb_spec 1920 w) as [Hw'|Hw'], (Z.ltb_spec 1920 h) as [Hh'|Hh'];
    cbn [orb].
  4:{ cbn [fst snd].
      destruct (lit_side w Hw) as (m & e & -> & _).
      destruct (lit_side h Hh) as (m' & e' & -> & _).
      split; apply SFleb_refl_finite. }
  all: destruct (Z.ltb_spec h w) as [Hlt|Hge]; cbn [fst snd]; try lia.
  all: try (destruct (scaled_side h w ltac:(lia) ltac:(lia))
              as (m & e & -> & _ & _ & Hshrink & _);
            split; [|exact Hshrink];
            apply SFltb_SFleb; change (@nlt binary64 _ (lit 1920) (lit (inject_Z w)) = true);
            rewrite nlt_1920 by lia; apply Z.ltb_lt; lia).
  all: destruct (scaled_side w h ltac:(lia) ltac:(lia))
         as (m & e & -> & _ & _ & Hshrink & _);
       split; [exact Hshrink|];
       apply SFltb_SFleb; change (@nlt binary64 _ (lit 1920) (lit (inject_Z h)) = true);
       rewrite nlt_1920 by lia; apply Z.ltb_lt; lia.
Qed.

Lemma resizeDimensions_never_enlarges_witness :
  let width : binary64 := lit (inject_Z 2094) in
  let height : binary64 := lit (inject_Z 2094) in
  let r := resizeDimensions width height (lit 1920) in
  nle (fst r) width = true /\ nle (snd r) height = true.
Proof.
  apply (resizeDimensions_never_enlarges 2094 2094); lia.
Defined.

(** ** The quality search *)

(** What the loop of [dataURLtoBlob] has stored when [n] turns are left
    to run: the char codes from [n] on. *)
Lemma fillFrom_lookup (bstr : list Byte.byte) (n : nat) (u8arr : list Byte.byte)
    (i : nat) :
  (n <= length bstr)%nat -> length u8arr = length bstr ->
  fillFrom bstr n u8arr !! i = if (i <? n)%nat then bstr !! i else u8arr !! i.
Proof.
  revert u8arr. induction n as [|n IH]; intros u8arr Hn Hlen; [reflexivity|].
  cbn [fillFrom]. rewrite IH; [|lia|now rewrite length_insert].
  destruct (Nat.ltb_spec i n) as [Hi|Hi].
  - destruct (Nat.ltb_spec i (S n)); [reflexivity | lia].
  - destruct (Nat.ltb_spec i (S n)) as [Hi'|Hi'].
    + assert (i = n) as -> by lia.
      rewrite list_lookup_insert.
      destruct (decide _) as [_|Hout]; [|exfalso; apply Hout; split; [reflexivity|lia]].
      destruct (lookup_lt_is_Some_2 bstr n Hn) as [b Hb].
      now rewrite Hb.
    + apply list_lookup_insert_ne. lia.
Qed.

Lemma u8arrOf_copies (bstr : list Byte.byte) : u8arrOf bstr = bstr.
Proof.
  apply list_eq. intros i. unfold u8arrOf. cbv zeta.
  rewrite fillFrom_lookup by (rewrite ?repeat_length; lia).
  destruct (Nat.ltb_spec i (length bstr)) as [Hi|Hi]; [reflexivity|].
  rewrite (lookup_ge_None_2 bstr) by lia.
  apply lookup_ge_None_2. rewrite repeat_length. lia.
Qed.

Lemma dataURLtoBlob_blobOf (d : DataURL) :
  d <> DataEmpty -> dataURLtoBlob d = Ok (blobOf d).
Proof.
  destruct d; [congruence|]. intros _. cbn [dataURLtoBlob blobOf]. cbv zeta.
  now rewrite u8arrOf_copies.
Qed.

(** The loop of [dataURLtoBlob] copies the whole decoded payload: the blob
    returned holds the payload byte for byte, so its size is the length of
    the payload, under the type of the data URL as [new Blob] normalises
    it. *)
Theorem dataURLtoBlob_fill (mime : string) (bstr : list Byte.byte) :
  exists blob,
    dataURLtoBlob (DataBase64 mime bstr) = Ok blob
    /\ blob_bytes blob = bstr
    /\ blob_size blob = Z.of_nat (length bstr)
    /\ blob_type blob = blobType mime.
Proof.
  eexists. split; [reflexivity|]. cbn [blob_bytes blob_type]. cbv zeta.
  unfold blob_size. cbn [blob_bytes]. rewrite u8arrOf_copies. repeat split.
Qed.

Lemma searchable_cases (mimeType : string) :
  searchable mimeType = true ->
  mimeType = "image/jpeg" \/ mimeType = "image/webp".
Proof.
  unfold searchable. intros [E|E]%orb_true_iff; apply String.eqb_eq in E; auto.
Qed.

Lemma bestObject_blob_none {num} `{JsNumber num} :
  get (bestObject (@None (DataURL * num))) "blob" = VNull.
Proof. reflexivity. Qed.

Lemma bestObject_blob_some {num} `{JsNumber num} (src : DataURL) (q : num) :
  get (bestObject (Some (src, q))) "blob" = VBlob (blobOf src).
Proof. reflexivity. Qed.

Lemma get_format_other {num} (o : gmap string (JSVal num)) (v : JSVal num)
    (k : string) :
  k <> "format" -> get (<["format" := v]> o) k = get o k.
Proof. intros Hk. unfold get. now rewrite lookup_insert_ne. Qed.

Section SearchProperties.
Context {num : Type} `{JsNumber num}.
Variable host : Host num.
Variable img : Image.
Variable mimeType : string.
Variable targetSize : num.
Variable isPngConversion : bool.

Local Abbreviation canvas := (prepareCanvas img isPngConversion).
Local Abbreviation encode := (encodeAt host canvas mimeType).
Local Abbreviation call := (callAt canvas mimeType).

Lemma tested_bisectionStep (b : Bisection num) :
  tested (bisectionStep encode targetSize b)
  = (tested b ++ [ndiv (nadd (low b) (high b)) (lit 2)])%list.
Proof. unfold bisectionStep. now destruct (withinBudget _ _ _). Qed.

Lemma length_tested_bisectionFrom (n : nat) (b : Bisection num) :
  length (tested (bisectionFrom encode targetSize n b))
  = (length (tested b) + n)%nat.
Proof.
  revert b. induction n as [|n IH]; intros b; simpl; [lia|].
  rewrite IH, tested_bisectionStep, length_app. simpl. lia.
Qed.

Hypothesis encodes :
  forall q, toDataURL host canvas mimeType (Some q) <> DataEmpty.

(** One turn of the loop is one step of the bisection. *)
Lemma searchStep_bisectionStep (b : Bisection num) (log : list (EncodeCall num)) :
  searchStep host canvas mimeType targetSize (toSearch b) log
  = (Ok (toSearch (bisectionStep encode targetSize b)),
     (log ++ [call (ndiv (nadd (low b) (high b)) (lit 2))])%list).
Proof.
  unfold searchStep, bind, call_toDataURL, lift. cbn [toSearch minQuality maxQuality].
  rewrite dataURLtoBlob_blobOf by apply encodes.
  unfold bisectionStep, withinBudget, encodeAt.
  destruct (nle _ targetSize); reflexivity.
Qed.

Lemma for_loop_bisectionFrom (n : nat) :
  forall (b : Bisection num) (log0 : list (EncodeCall num)),
  for_loop n (searchStep host canvas mimeType targetSize) (toSearch b)
           (log0 ++ map call (tested b))%list
  = (Ok (toSearch (bisectionFrom encode targetSize n b)),
     (log0 ++ map call (tested (bisectionFrom encode targetSize n b)))%list).
Proof.
  induction n as [|n IH]; intros b log0; simpl; [reflexivity|].
  unfold bind at 1. rewrite searchStep_bisectionStep.
  rewrite <- app_assoc, <- (IH (bisectionStep encode targetSize b) log0).
  f_equal. f_equal. rewrite tested_bisectionStep, map_app. reflexivity.
Qed.

Hypothesis search : searchable mimeType = true.

Lemma formatLabel_searchable :
  exists label, formatLabel "as " mimeType = Ok label.
Proof.
  destruct (searchable_cases _ search) as [E|E]; rewrite E; eexists; reflexivity.
Qed.

(** [compressImage] on a format the search runs on: the seven turns of the
    loop, then the fallback encode when no turn recorded a result. *)
Lemma compressImage_search (log0 : list (EncodeCall num)) :
  exists label,
  formatLabel "as " mimeType = Ok label /\
  compressImage host img mimeType targetSize isPngConversion log0
  = let b := bisection encode targetSize 7 in
    match best b with
    | Some _ =>
        (Ok (<["format" := VStr label]> (bestObject (best b))),
         (log0 ++ map call (tested b))%list)
    | None =>
        (Ok (<["format" := VStr label]> (fallbackObject (encode (lit 0.1)))),
         (log0 ++ map call (tested b) ++ [call (lit 0.1)])%list)
    end.
Proof.
  destruct formatLabel_searchable as [label Hlabel]. exists label.
  split; [assumption|].
  unfold compressImage.
  replace (negb (String.eqb mimeType "image/jpeg")
           && negb (String.eqb mimeType "image/webp")) with false
    by (destruct (searchable_cases _ search) as [E|E]; rewrite E; reflexivity).
  unfold bind at 1.
  change searchInit with (toSearch (@bisectionInit num _)).
  pose proof (for_loop_bisectionFrom 7 bisectionInit log0) as Hloop.
  cbn [tested bisectionInit map] in Hloop. rewrite app_nil_r in Hloop.
  rewrite Hloop. clear Hloop.
  fold (bisection encode targetSize 7).
  cbv zeta. cbn [toSearch bestResult].
  destruct (best (bisection encode targetSize 7)) as [[src q]|] eqn:Hbest.
  - rewrite bestObject_blob_some. cbn [truthy negb].
    unfold bind, ret, lift. rewrite Hlabel. reflexivity.
  - rewrite bestObject_blob_none. cbn [truthy negb].
    unfold bind, ret, lift, call_toDataURL.
    rewrite dataURLtoBlob_blobOf by apply encodes.
    rewrite Hlabel. rewrite <- app_assoc. reflexivity.
Qed.

Lemma bestSound_step (b : Bisection num) :
  bestSound encode targetSize b ->
  bestSound encode targetSize (bisectionStep encode targetSize b).
Proof.
  unfold bestSound, bisectionStep.
  destruct (withinBudget encode targetSize _) eqn:Hmid; cbn [best low tested].
  - intros _. repeat split; auto. apply in_or_app. right. now left.
  - destruct (best b) as [[src q]|].
    + intros (Hq & Hin & Hsrc & Hsat). repeat split; auto.
      apply in_or_app. now left.
    + intros Hall q [Hin|[<-|[]]]%in_app_or; auto.
Qed.

Lemma bestSound_bisectionFrom (n : nat) (b : Bisection num) :
  bestSound encode targetSize b ->
  bestSound encode targetSize (bisectionFrom encode targetSize n b).
Proof.
  revert b. induction n as [|n IH]; intros b Hb; simpl; [assumption|].
  apply IH, bestSound_step, Hb.
Qed.

Lemma bestSound_bisection (n : nat) :
  bestSound encode targetSize (bisection encode targetSize n).
Proof. apply bestSound_bisectionFrom. intros q []. Qed.

Lemma bisectionFrom_last (n : nat) (b : Bisection num) :
  bisectionFrom encode targetSize (S n) b
  = bisectionStep encode targetSize (bisectionFrom encode targetSize n b).
Proof.
  revert b. induction n as [|n IH]; intros b; [reflexivity|].
  change (bisectionFrom encode targetSize (S (S n)) b)
    with (bisectionFrom encode targetSize (S n) (bisectionStep encode targetSize b)).
  rewrite IH. reflexivity.
Qed.

Lemma length_tested_bisection (n : nat) :
  length (tested (bisection encode targetSize n)) = n.
Proof. unfold bisection. now rewrite length_tested_bisectionFrom. Qed.

Lemma firstn_calls (n : nat) (rest : list (EncodeCall num)) :
  firstn n (map call (tested (bisection encode targetSize n)) ++ rest)%list
  = map call (tested (bisection encode targetSize n)).
Proof.
  rewrite firstn_app, length_map, length_tested_bisection, Nat.sub_diag.
  rewrite firstn_O, app_nil_r. apply firstn_all2.
  rewrite length_map, length_tested_bisection. lia.
Qed.

(** The log of [compressImage], from an empty one. *)
Lemma compressImage_search_log :
  snd (compressImage host img mimeType targetSize isPngConversion [])
  = (map call (tested (bisection encode targetSize 7))
     ++ match best (bisection encode targetSize 7) with
        | Some _ => []
        | None => [call (lit 0.1)]
        end)%list.
Proof.
  destruct (compressImage_search []) as (label & _ & ->). cbv zeta.
  destruct (best (bisection encode targetSize 7)); cbn [snd app];
    [now rewrite app_nil_r | reflexivity].
Qed.

End SearchProperties.

(** ** The bisection follows a list of answers *)

Section GridProperties.
Context {num : Type} `{JsNumber num}.
Variable encode : num -> DataURL.
Variable budget : num.

Lemma in_answerLists (l : list bool) : In l (answerLists (length l)).
Proof.
  induction l as [|a l IH]; simpl; [now left|].
  apply in_flat_map. exists l. split; [assumption|].
  destruct a; simpl; auto.
Qed.

Lemma sameWalk_step (b : Bisection num) (w : Walk num) :
  sameWalk encode budget b w ->
  sameWalk encode budget (bisectionStep encode budget b)
           (walkStep (withinBudget encode budget
                        (ndiv (nadd (low b) (high b)) (lit 2))) w).
Proof.
  intros (Hl & Hh & Hb & Ht & Hs). unfold bisectionStep, walkStep.
  rewrite <- Hl, <- Hh.
  destruct (withinBudget encode budget _) eqn:Hmid;
    unfold sameWalk; cbn [low high best tested w_low w_high w_best w_seen option_map snd];
    rewrite map_app, Ht; repeat split; auto;
    apply List.Forall_app; split; auto.
Qed.

Lemma sameWalk_bisectionFrom (n : nat) :
  forall b w, sameWalk encode budget b w ->
  exists answers,
    length answers = n
    /\ sameWalk encode budget (bisectionFrom encode budget n b) (walk answers w).
Proof.
  induction n as [|n IH]; intros b w Hbw.
  - exists []. split; [reflexivity | exact Hbw].
  - destruct (IH _ _ (sameWalk_step b w Hbw)) as (answers & Hlen & Hsame).
    eexists (_ :: answers). split; [simpl; now rewrite Hlen|]. exact Hsame.
Qed.

(** On ordered numbers, no tested quality within the budget is above the
    best one. *)
Lemma bisection_best_highest (n : nat) (src : DataURL) (q : num) :
  gridOrdered (num := num) n = true ->
  best (bisection encode budget n) = Some (src, q) ->
  forall q', In q' (tested (bisection encode budget n)) ->
             nlt q q' = true -> withinBudget encode budget q' = false.
Proof.
  intros Hgrid Hbest q' Hin Hlt.
  destruct (sameWalk_bisectionFrom n bisectionInit walkInit)
    as (answers & Hlen & (_ & _ & Hb & Ht & Hs)).
  { repeat split. constructor. }
  fold (bisection encode budget n) in Hb, Ht.
  unfold gridOrdered in Hgrid. rewrite forallb_forall in Hgrid.
  specialize (Hgrid answers). rewrite <- Hlen in Hgrid.
  specialize (Hgrid (in_answerLists answers)).
  unfold bestIsHighest in Hgrid. rewrite <- Hb, Hbest in Hgrid.
  cbn [option_map snd] in Hgrid. rewrite forallb_forall in Hgrid.
  rewrite Ht in Hin. apply in_map_iff in Hin as ([q'' a] & Hq & Hin).
  cbn [fst] in Hq. subst q''.
  specialize (Hgrid _ Hin). cbn [fst snd] in Hgrid.
  rewrite List.Forall_forall in Hs. specialize (Hs _ Hin). cbn [fst snd] in Hs.
  rewrite Hs. rewrite Hlt in Hgrid. now destruct a.
Qed.

End GridProperties.

(** Both arithmetics are ordered on the grid of the search. *)
Lemma searchOrdered_binary64 : searchOrdered binary64 = true.
Proof. vm_compute. reflexivity. Qed.

Lemma searchOrdered_Q : searchOrdered Q = true.
Proof. vm_compute. reflexivity. Qed.

(** ** The claims on the quality search *)

Lemma in_callAt {num} (canvas : Canvas num) (mimeType : string) (q : num)
    (l : list num) :
  In (callAt canvas mimeType q) (map (callAt canvas mimeType) l) -> In q l.
Proof.
  intros (q' & Hq & Hin)%in_map_iff. unfold callAt in Hq.
  injection Hq as ->. exact Hin.
Qed.

(** C2. On JPEG and WebP the loop of [compressImage] is the bisection of
    the design taken seven times, whatever the encodes are: each turn
    encodes once, at the midpoint of the bounds, an encode within the budget
    becomes the best and raises the low bound, another one lowers the high
    bound; the seven encodes open the log of [compressImage], followed by
    the fallback encode alone when there is no best. *)
Theorem compressImage_seven_iterations {num : Type} `{JsNumber num}
    (host : Host num) (img : Image) (mimeType : string) (targetSize : num)
    (isPngConversion : bool) :
  searchable mimeType = true ->
  (forall q, toDataURL host (prepareCanvas img isPngConversion) mimeType (Some q)
             <> DataEmpty) ->
  let canvas := prepareCanvas img isPngConversion in
  let encode := encodeAt host canvas mimeType in
  let b := bisection encode targetSize 7 in
  for_loop 7 (searchStep host canvas mimeType targetSize) searchInit []
  = (Ok (toSearch b), map (callAt canvas mimeType) (tested b))
  /\ length (tested b) = 7%nat
  /\ (forall i, bisection encode targetSize (S i)
                = bisectionStep encode targetSize (bisection encode targetSize i))
  /\ snd (compressImage host img mimeType targetSize isPngConversion [])
     = (map (callAt canvas mimeType) (tested b)
        ++ match best b with
           | Some _ => []
           | None => [callAt canvas mimeType (lit 0.1)]
           end)%list.
Proof.
  intros Hsearch Hencodes canvas encode b. repeat split.
  - exact (for_loop_bisectionFrom host img mimeType targetSize isPngConversion
             Hencodes 7 bisectionInit []).
  - apply length_tested_bisection.
  - intros i. apply bisectionFrom_last.
  - apply compressImage_search_log; assumption.
Qed.

Lemma compressImage_seven_iterations_witness :
  let canvas := prepareCanvas demoImage true in
  let encode := encodeAt demoHost canvas "image/jpeg" in
  let b := bisection encode (lit 100) 7 in
  for_loop 7 (searchStep demoHost canvas "image/jpeg" (lit 100)) searchInit []
  = (Ok (toSearch b), map (callAt canvas "image/jpeg") (tested b))
  /\ length (tested b) = 7%nat
  /\ (forall i, bisection encode (lit 100) (S i)
                = bisectionStep encode (lit 100) (bisection encode (lit 100) i))
  /\ snd (compressImage demoHost demoImage "image/jpeg" (lit 100) true [])
     = (map (callAt canvas "image/jpeg") (tested b)
        ++ match best b with
           | Some _ => []
           | None => [callAt canvas "image/jpeg" (lit 0.1)]
           end)%list.
Proof.
  apply (compressImage_seven_iterations demoHost demoImage "image/jpeg"
           (lit 100) true).
  - reflexivity.
  - intros q. discriminate.
Defined.

(** C2, on a canvas without pixels. An image of 1 by 2000 pixels is resized
    to 0.96 by 1920 and the canvas gets width 0; its encode is ["data:,"],
    [dataURLtoBlob] throws in the first turn of the loop, and the run has
    made one encode, not seven. *)
Lemma compressImage_seven_iterations_sliver :
  let canvas := prepareCanvas sliverImage false in
  let run := compressImage pixelHost sliverImage "image/jpeg" (lit 400) false [] in
  searchable "image/jpeg" = true
  /\ cv_width canvas = 0%Z /\ cv_height canvas = 1920%Z
  /\ snd run = [callAt canvas "image/jpeg" (lit 0.5)]
  /\ length (snd run) = 1%nat.
Proof. vm_compute. repeat split. Qed.

(** C3. On JPEG and WebP [compressImage] always returns a result whose blob
    is not null; when none of the seven tested qualities is within the
    budget, one more encode is made, at quality 0.1, and the result is that
    encode. *)
Theorem compressImage_fallback {num : Type} `{JsNumber num}
    (host : Host num) (img : Image) (mimeType : string) (targetSize : num)
    (isPngConversion : bool) :
  searchable mimeType = true ->
  (forall q, toDataURL host (prepareCanvas img isPngConversion) mimeType (Some q)
             <> DataEmpty) ->
  let canvas := prepareCanvas img isPngConversion in
  let encode := encodeAt host canvas mimeType in
  let run := compressImage host img mimeType targetSize isPngConversion [] in
  (exists result blob, fst run = Ok result /\ get result "blob" = VBlob blob)
  /\ ((forall q, In (callAt canvas mimeType q) (firstn 7 (snd run)) ->
                 withinBudget encode targetSize q = false) ->
      exists result,
        fst run = Ok result
        /\ get result "src" = VUrl (encode (lit 0.1))
        /\ get result "blob" = VBlob (blobOf (encode (lit 0.1)))
        /\ get result "quality" = VNum (lit 0.1)
        /\ snd run = (firstn 7 (snd run) ++ [callAt canvas mimeType (lit 0.1)])%list).
Proof.
  intros Hsearch Hencodes canvas encode run. subst canvas encode run.
  pose proof (compressImage_search_log host img mimeType targetSize
                isPngConversion Hencodes Hsearch) as Hlog.
  destruct (compressImage_search host img mimeType targetSize isPngConversion
              Hencodes Hsearch []) as (label & _ & Hrun).
  cbv zeta in Hrun.
  pose proof (bestSound_bisection host img mimeType targetSize isPngConversion 7)
    as Hsound.
  unfold bestSound in Hsound.
  rewrite Hlog, Hrun. clear Hlog Hrun.
  destruct (best (bisection _ targetSize 7)) as [[src q]|] eqn:Hbest.
  - split.
    + eexists _, (blobOf src). split; [reflexivity|].
      now rewrite get_format_other.
    + intros Hnone. exfalso.
      destruct Hsound as (_ & Hin & _ & Hsat).
      rewrite (firstn_calls host img mimeType targetSize isPngConversion 7 [])
        in Hnone.
      specialize (Hnone q (in_map _ _ _ Hin)). congruence.
  - split.
    + eexists _, _. split; [reflexivity|].
      now rewrite get_format_other.
    + intros _. eexists. cbn [fst snd]. split; [reflexivity|].
      rewrite !get_format_other by discriminate.
      rewrite (firstn_calls host img mimeType targetSize isPngConversion 7).
      repeat split.
Qed.

Lemma compressImage_fallback_witness :
  let canvas := prepareCanvas demoImage false in
  let encode := encodeAt demoHost canvas "image/webp" in
  let run := compressImage demoHost demoImage "image/webp" (lit 10) false [] in
  exists result,
    fst run = Ok result
    /\ get result "src" = VUrl (encode (lit 0.1))
    /\ get result "blob" = VBlob (blobOf (encode (lit 0.1)))
    /\ get result "quality" = VNum (lit 0.1)
    /\ snd run = (firstn 7 (snd run) ++ [callAt canvas "image/webp" (lit 0.1)])%list.
Proof.
  refine (proj2 (compressImage_fallback demoHost demoImage "image/webp"
                   (lit 10) false eq_refl _) _).
  - intros q. discriminate.
  - intros q Hin. vm_compute in Hin.
    repeat (destruct Hin as [Hin|Hin];
            [injection Hin as <-; vm_compute; reflexivity|]).
    destruct Hin.
Defined.

(** C3, on a canvas without pixels. An image of 1 by 2000 pixels is resized
    to 0.96 by 1920, the canvas gets width 0, and the first encode is
    ["data:,"]: the run throws, no encode at 0.1 is made and no result is
    returned. *)
Lemma compressImage_fallback_sliver :
  let canvas := prepareCanvas sliverImage false in
  let run := compressImage pixelHost sliverImage "image/webp" (lit 400) false [] in
  searchable "image/webp" = true
  /\ fst run = Throw (TypeError "Cannot read properties of null (reading '1')")
  /\ ~ In (callAt canvas "image/webp" (lit 0.1)) (snd run).
Proof.
  vm_compute. repeat split. intros [Hcall|[]]. discriminate Hcall.
Qed.

(** The best quality, in any arithmetic that is ordered on the grid of the
    search. *)
Lemma compressImage_best_quality_ordered {num : Type} `{JsNumber num}
    (host : Host num) (img : Image) (mimeType : string) (targetSize : num)
    (isPngConversion : bool) :
  searchOrdered num = true ->
  searchable mimeType = true ->
  (forall q, toDataURL host (prepareCanvas img isPngConversion) mimeType (Some q)
             <> DataEmpty) ->
  let canvas := prepareCanvas img isPngConversion in
  let encode := encodeAt host canvas mimeType in
  let run := compressImage host img mimeType targetSize isPngConversion [] in
  (exists q, In (callAt canvas mimeType q) (snd run)
             /\ withinBudget encode targetSize q = true) ->
  exists result blob q,
    fst run = Ok result
    /\ get result "blob" = VBlob blob
    /\ get result "quality" = VNum q
    /\ blob = blobOf (encode q)
    /\ In (callAt canvas mimeType q) (snd run)
    /\ nle (lit (inject_Z (blob_size blob))) targetSize = true
    /\ (forall q', In (callAt canvas mimeType q') (snd run) ->
                   nlt q q' = true ->
                   withinBudget encode targetSize q' = false).
Proof.
  intros [Hgrid Hirr]%andb_true_iff Hsearch Hencodes canvas encode run.
  subst canvas encode run. apply negb_true_iff in Hirr.
  pose proof (compressImage_search_log host img mimeType targetSize
                isPngConversion Hencodes Hsearch) as Hlog.
  destruct (compressImage_search host img mimeType targetSize isPngConversion
              Hencodes Hsearch []) as (label & _ & Hrun).
  cbv zeta in Hrun.
  pose proof (bestSound_bisection host img mimeType targetSize isPngConversion 7)
    as Hsound.
  unfold bestSound in Hsound.
  rewrite Hlog, Hrun. clear Hlog Hrun.
  destruct (best (bisection _ targetSize 7)) as [[src q]|] eqn:Hbest.
  - intros _. destruct Hsound as (_ & Hin & -> & Hsat).
    eexists _, _, q. split; [reflexivity|].
    rewrite !get_format_other by discriminate.
    rewrite app_nil_r. repeat split.
    + now apply in_map.
    + exact Hsat.
    + intros q' Hq' Hlt. apply in_callAt in Hq'.
      exact (bisection_best_highest _ _ 7 _ _ Hgrid Hbest q' Hq' Hlt).
  - intros (q0 & Hq0 & Hsat0).
    apply in_app_or in Hq0 as [Hq0|[Hq0|[]]].
    { apply in_callAt in Hq0. rewrite (Hsound _ Hq0) in Hsat0. discriminate. }
    unfold callAt in Hq0. injection Hq0 as <-.
    eexists _, _, (lit 0.1). split; [reflexivity|].
    rewrite !get_format_other by discriminate.
    repeat split.
    + apply in_or_app. right. now left.
    + exact Hsat0.
    + intros q' [Hq'|[Hq'|[]]]%in_app_or Hlt.
      * apply in_callAt in Hq'. now apply Hsound.
      * unfold callAt in Hq'. injection Hq' as <-. congruence.
Qed.

(** C1. On JPEG and WebP, in the arithmetic of the browser: when the encode
    at some tested quality is within the budget, the blob returned is
    within the budget, it is the encode at the quality returned, which was
    tested, and no tested quality above that one is within the budget. *)
Theorem compressImage_best_quality (host : Host binary64) (img : Image)
    (mimeType : string) (targetSize : binary64) (isPngConversion : bool) :
  searchable mimeType = true ->
  (forall q, toDataURL host (prepareCanvas img isPngConversion) mimeType (Some q)
             <> DataEmpty) ->
  let canvas := prepareCanvas img isPngConversion in
  let encode := encodeAt host canvas mimeType in
  let run := compressImage host img mimeType targetSize isPngConversion [] in
  (exists q, In (callAt canvas mimeType q) (snd run)
             /\ withinBudget encode targetSize q = true) ->
  exists result blob q,
    fst run = Ok result
    /\ get result "blob" = VBlob blob
    /\ get result "quality" = VNum q
    /\ blob = blobOf (encode q)
    /\ In (callAt canvas mimeType q) (snd run)
    /\ nle (lit (inject_Z (blob_size blob))) targetSize = true
    /\ (forall q', In (callAt canvas mimeType q') (snd run) ->
                   nlt q q' = true ->
                   withinBudget encode targetSize q' = false).
Proof.
  apply compressImage_best_quality_ordered. exact searchOrdered_binary64.
Qed.

(** The same in exact arithmetic. *)
Lemma compressImage_best_quality_exact (host : Host Q) (img : Image)
    (mimeType : string) (targetSize : Q) (isPngConversion : bool) :
  searchable mimeType = true ->
  (forall q, toDataURL host (prepareCanvas img isPngConversion) mimeType (Some q)
             <> DataEmpty) ->
  let canvas := prepareCanvas img isPngConversion in
  let encode := encodeAt host canvas mimeType in
  let run := compressImage host img mimeType targetSize isPngConversion [] in
  (exists q, In (callAt canvas mimeType q) (snd run)
             /\ withinBudget encode targetSize q = true) ->
  exists result blob q,
    fst run = Ok result
    /\ get result "blob" = VBlob blob
    /\ get result "quality" = VNum q
    /\ blob = blobOf (encode q)
    /\ In (callAt canvas mimeType q) (snd run)
    /\ (inject_Z (blob_size blob) <= targetSize)%Q
    /\ (forall q', In (callAt canvas mimeType q') (snd run) ->
                   (q < q')%Q ->
                   withinBudget encode targetSize q' = false).
Proof.
  intros Hsearch Hencodes canvas encode run Hreach.
  destruct (compressImage_best_quality_ordered host img mimeType targetSize
              isPngConversion searchOrdered_Q Hsearch Hencodes Hreach)
    as (result & blob & q & H1 & H2 & H3 & H4 & H5 & H6 & H7).
  exists result, blob, q. repeat split; auto.
  - now apply Qle_bool_iff.
  - intros q' Hq' Hlt. apply H7; [assumption|]. now apply Q_nlt_true.
Qed.

Lemma compressImage_best_quality_witness :
  exists result blob q,
    fst (compressImage demoHost demoImage "image/jpeg" (lit 100) true [])
    = Ok result
    /\ get result "blob" = VBlob blob
    /\ get result "quality" = VNum q
    /\ blob = blobOf (encodeAt demoHost (prepareCanvas demoImage true) "image/jpeg" q)
    /\ In (callAt (prepareCanvas demoImage true) "image/jpeg" q)
          (snd (compressImage demoHost demoImage "image/jpeg" (lit 100) true []))
    /\ nle (lit (inject_Z (blob_size blob))) (lit 100 : binary64) = true
    /\ (forall q',
         In (callAt (prepareCanvas demoImage true) "image/jpeg" q')
            (snd (compressImage demoHost demoImage "image/jpeg" (lit 100) true [])) ->
         nlt q q' = true ->
         withinBudget (encodeAt demoHost (prepareCanvas demoImage true) "image/jpeg")
                      (lit 100) q' = false).
Proof.
  apply (compressImage_best_quality demoHost demoImage "image/jpeg" (lit 100) true).
  - reflexivity.
  - intros q. discriminate.
  - exists (lit 0.25). split.
    + vm_compute. right. left. reflexivity.
    + vm_compute. reflexivity.
Defined.

(** ** Formats without a quality *)

Lemma split_nonempty (c : ascii) (s : string) : JsString.split c s <> [].
Proof.
  destruct s as [|a s]; simpl; [discriminate|].
  destruct (Ascii.eqb a c); [discriminate|].
  destruct (JsString.split c s); discriminate.
Qed.

Lemma prefix_app (p s : string) :
  String.prefix p s = true -> exists rest, s = p ++ rest.
Proof.
  revert s. induction p as [|a p IH]; intros s Hp.
  - now exists s.
  - destruct s as [|b s]; simpl in Hp; [discriminate|].
    destruct (ascii_dec a b) as [<-|]; [|discriminate].
    destruct (IH _ Hp) as [rest ->]. now exists rest.
Qed.

Lemma startsWith_image (mimeType : string) :
  JsString.startsWith mimeType "image/" = true ->
  exists rest, mimeType = "image/" ++ rest.
Proof. apply prefix_app. Qed.

Lemma formatLabel_image (prefix mimeType : string) :
  JsString.startsWith mimeType "image/" = true ->
  exists label, formatLabel prefix mimeType = Ok label.
Proof.
  intros (rest & ->)%startsWith_image. unfold formatLabel.
  change ("image/" ++ rest)
    with (String "i" (String "m" (String "a" (String "g" (String "e"
           (String "/" rest)))))).
  simpl.
  destruct (JsString.split "/" rest) as [|sub pieces] eqn:E.
  - now apply split_nonempty in E.
  - simpl. eexists. reflexivity.
Qed.

Lemma compressImage_unsearchable_run {num : Type} `{JsNumber num}
    (host : Host num) (img : Image) (mimeType : string) (targetSize : num)
    (isPngConversion : bool) (label : string) (log0 : list (EncodeCall num)) :
  searchable mimeType = false ->
  formatLabel "Resized as " mimeType = Ok label ->
  let canvas := prepareCanvas img isPngConversion in
  compressImage host img mimeType targetSize isPngConversion log0
  = (Ok {[ "blob" := from_option VBlob VNull (toBlob host canvas mimeType);
           "src" := VUrl (toDataURL host canvas mimeType None);
           "format" := VStr label ]},
     (log0 ++ [CallToBlob canvas mimeType; CallToDataURL canvas mimeType None])%list).
Proof.
  intros Hsearch Hlabel canvas. unfold compressImage.
  unfold searchable in Hsearch. apply orb_false_iff in Hsearch as [-> ->].
  cbn [negb andb]. unfold bind, call_toBlob, call_toDataURL, lift, ret.
  rewrite Hlabel, <- app_assoc. reflexivity.
Qed.

(** C6, as the script has it. On a format that is neither JPEG nor WebP
    [compressImage] runs no search: it encodes the canvas twice without a
    quality, once with [toBlob] for the blob and once with [toDataURL] for
    the source of the preview, returns these, and never reads the budget. *)
Theorem compressImage_unsearchable {num : Type} `{JsNumber num}
    (host : Host num) (img : Image) (mimeType : string) (targetSize : num)
    (isPngConversion : bool) :
  searchable mimeType = false ->
  JsString.startsWith mimeType "image/" = true ->
  let canvas := prepareCanvas img isPngConversion in
  let run := compressImage host img mimeType targetSize isPngConversion [] in
  snd run = [CallToBlob canvas mimeType; CallToDataURL canvas mimeType None]
  /\ (exists result,
        fst run = Ok result
        /\ get result "blob" = from_option VBlob VNull (toBlob host canvas mimeType)
        /\ get result "src" = VUrl (toDataURL host canvas mimeType None))
  /\ (forall otherSize,
        compressImage host img mimeType otherSize isPngConversion [] = run).
Proof.
  intros Hsearch Himage canvas run. subst canvas run.
  destruct (formatLabel_image "Resized as " _ Himage) as [label Hlabel].
  rewrite (compressImage_unsearchable_run host img mimeType targetSize
             isPngConversion label [] Hsearch Hlabel).
  cbv zeta. cbn [fst snd app]. repeat split.
  - eexists. repeat split.
  - intros otherSize.
    now rewrite (compressImage_unsearchable_run host img mimeType otherSize
                   isPngConversion label [] Hsearch Hlabel).
Qed.

Lemma compressImage_unsearchable_witness :
  let canvas := prepareCanvas demoImage false in
  let run := compressImage demoHost demoImage "image/bmp" (lit 50) false [] in
  snd run = [CallToBlob canvas "image/bmp"; CallToDataURL canvas "image/bmp" None]
  /\ (exists result,
        fst run = Ok result
        /\ get result "blob"
           = from_option VBlob VNull (toBlob demoHost canvas "image/bmp")
        /\ get result "src" = VUrl (toDataURL demoHost canvas "image/bmp" None))
  /\ (forall otherSize,
        compressImage demoHost demoImage "image/bmp" otherSize false [] = run).
Proof.
  apply (compressImage_unsearchable demoHost demoImage "image/bmp" (lit 50) false);
    reflexivity.
Defined.

(** C6, as stated: one encode call. For a BMP the log of [compressImage]
    holds two encode calls, not one. *)
Lemma compressImage_unsearchable_two_calls :
  searchable "image/bmp" = false
  /\ length (snd (compressImage demoHost demoImage "image/bmp" (lit 50) false []))
     = 2%nat
  /\ length (snd (compressImage demoHost demoImage "image/bmp" (lit 50) false []))
     <> 1%nat.
Proof. vm_compute. repeat split. discriminate. Qed.

(** ** What every run of [compressImage] has *)

Lemma for_loop_preserves {S A : Type} (I : A -> S -> Prop) (J : S -> Prop)
    (body : A -> M S A) :
  (forall a s, I a s ->
     match body a s with
     | (Ok a', s') => I a' s'
     | (Throw _, s') => J s'
     end) ->
  forall n a s, I a s ->
    match for_loop n body a s with
    | (Ok a', s') => I a' s'
    | (Throw _, s') => J s'
    end.
Proof.
  intros Hbody. induction n as [|n IH]; intros a s Ha; simpl; [exact Ha|].
  unfold bind. specialize (Hbody a s Ha).
  destruct (body a s) as [[a'|e] s']; [now apply IH | exact Hbody].
Qed.

Section Shape.
Context {num : Type} `{JsNumber num}.
Variable host : Host num.
Variable img : Image.
Variable mimeType : string.
Variable targetSize : num.
Variable isPngConversion : bool.

Local Abbreviation canvas := (prepareCanvas img isPngConversion).
Local Abbreviation onCanvas := (List.Forall (callOn canvas mimeType)).

Lemma searchStep_shape (s : Search num) (log : list (EncodeCall num)) :
  bestResult s !! "mimeType" = None /\ onCanvas log ->
  match searchStep host canvas mimeType targetSize s log with
  | (Ok s', log') => bestResult s' !! "mimeType" = None /\ onCanvas log'
  | (Throw _, log') => onCanvas log'
  end.
Proof.
  intros [Hs Hlog].
  assert (Hlog' : forall q, onCanvas (log ++ [CallToDataURL canvas mimeType q])%list).
  { intros q. apply List.Forall_app. split; [assumption|].
    constructor; [now split | constructor]. }
  unfold searchStep, bind, call_toDataURL, lift.
  destruct (dataURLtoBlob _) as [blob|e]; [|apply Hlog'].
  destruct (nle _ targetSize); unfold ret; cbn [bestResult]; split;
    auto using Hlog'.
Qed.

(** Every encode of a run reads the canvas prepared for the image, in the
    format asked for; a result has no property [mimeType]. *)
Lemma compressImage_shape_run :
  match compressImage host img mimeType targetSize isPngConversion [] with
  | (r, log) =>
      onCanvas log
      /\ (forall result, r = Ok result -> get result "mimeType" = VUndefined)
  end.
Proof.
  unfold compressImage.
  destruct (negb (String.eqb mimeType "image/jpeg")
            && negb (String.eqb mimeType "image/webp")).
  - unfold bind, call_toBlob, call_toDataURL, lift, ret. cbn [app].
    assert (Hlog : onCanvas [CallToBlob canvas mimeType;
                             CallToDataURL canvas mimeType None]).
    { repeat constructor. }
    destruct (formatLabel "Resized as " mimeType) as [label|e];
      (split; [exact Hlog|]); intros result [= <-]; reflexivity.
  - unfold bind at 1.
    pose proof (for_loop_preserves
                  (fun s log => bestResult s !! "mimeType" = None /\ onCanvas log)
                  onCanvas
                  (searchStep host canvas mimeType targetSize)
                  searchStep_shape 7 searchInit [])
      as Hloop.
    specialize (Hloop (conj eq_refl (List.Forall_nil _))).
    destruct (for_loop 7 _ searchInit []) as [[s|e] log].
    2:{ split; [exact Hloop|]. intros result [=]. }
    destruct Hloop as [Hs Hlog].
    assert (Hlog' : forall q, onCanvas (log ++ [CallToDataURL canvas mimeType q])%list).
    { intros q. apply List.Forall_app. split; [assumption|].
      constructor; [now split | constructor]. }
    unfold bind, call_toDataURL, lift, ret.
    destruct (negb (truthy (get (bestResult s) "blob"))).
    + destruct (dataURLtoBlob _) as [blob|e].
      2:{ split; [apply Hlog'|]. intros result [=]. }
      destruct (formatLabel "as " mimeType) as [label|e];
        (split; [apply Hlog'|]); intros result [= <-]; reflexivity.
    + destruct (formatLabel "as " mimeType) as [label|e];
        (split; [exact Hlog|]); intros result [= <-].
      unfold get. rewrite lookup_insert_ne by discriminate. now rewrite Hs.
Qed.

(** Every encode of a run reads the canvas prepared for the image, in the
    format asked for; a result has no property [mimeType]. *)
Lemma compressImage_shape :
  let run := compressImage host img mimeType targetSize isPngConversion [] in
  onCanvas (snd run)
  /\ (forall result, fst run = Ok result -> get result "mimeType" = VUndefined).
Proof.
  cbv zeta. pose proof compressImage_shape_run as Hrun.
  destruct (compressImage _ _ _ _ _ _) as [r log]. exact Hrun.
Qed.

End Shape.

(** ** The format policy *)

Lemma hd_error_app_some {A : Type} (x : A) (l l' : list A) :
  hd_error l = Some x -> hd_error (l ++ l')%list = Some x.
Proof. destruct l; [discriminate | exact id]. Qed.

Lemma for_loop_S {S A : Type} (n : nat) (body : A -> M S A) (a : A) :
  for_loop (Datatypes.S n) body a = bind (body a) (for_loop n body).
Proof. reflexivity. Qed.

Section Head.
Context {num : Type} `{JsNumber num}.
Variable host : Host num.
Variable img : Image.
Variable mimeType : string.
Variable targetSize : num.
Variable isPngConversion : bool.

Local Abbreviation canvas := (prepareCanvas img isPngConversion).

Lemma searchStep_head (c : EncodeCall num) (s : Search num)
    (log : list (EncodeCall num)) :
  hd_error log = Some c ->
  match searchStep host canvas mimeType targetSize s log with
  | (Ok _, log') => hd_error log' = Some c
  | (Throw _, log') => hd_error log' = Some c
  end.
Proof.
  intros Hlog. unfold searchStep, bind, call_toDataURL, lift.
  destruct (dataURLtoBlob _) as [blob|e]; [|now apply hd_error_app_some].
  destruct (nle _ targetSize); unfold ret; now apply hd_error_app_some.
Qed.

Lemma for_loop_head (c : EncodeCall num) (n : nat) (s : Search num)
    (log : list (EncodeCall num)) :
  hd_error log = Some c ->
  hd_error (snd (for_loop n (searchStep host canvas mimeType targetSize) s log))
  = Some c.
Proof.
  intros Hlog.
  pose proof (for_loop_preserves
                (fun _ log => hd_error log = Some c)
                (fun log => hd_error log = Some c)
                (searchStep host canvas mimeType targetSize)
                (fun s log => searchStep_head c s log) n s log Hlog) as Hloop.
  now destruct (for_loop n _ s log) as [[s'|e] log'].
Qed.

(** The first encode of a run. *)
Lemma compressImage_head :
  hd_error (snd (compressImage host img mimeType targetSize isPngConversion []))
  = Some (if searchable mimeType
          then callAt canvas mimeType (ndiv (nadd (lit 0) (lit 1)) (lit 2))
          else CallToBlob canvas mimeType).
Proof.
  unfold compressImage.
  replace (negb (String.eqb mimeType "image/jpeg")
           && negb (String.eqb mimeType "image/webp"))
    with (negb (searchable mimeType))
    by (unfold searchable; now rewrite negb_orb).
  destruct (searchable mimeType); cbn [negb].
  2:{ unfold bind, call_toBlob, call_toDataURL, lift, ret. cbn [app].
      now destruct (formatLabel "Resized as " mimeType). }
  assert (Hfirst : exists r,
             searchStep host canvas mimeType targetSize searchInit []
             = (r, [callAt canvas mimeType (ndiv (nadd (lit 0) (lit 1)) (lit 2))])).
  { unfold searchStep, bind, call_toDataURL, lift, ret.
    cbn [searchInit minQuality maxQuality app].
    destruct (dataURLtoBlob _) as [blob|e]; [destruct (nle _ targetSize)|];
      eexists; reflexivity. }
  destruct Hfirst as [r Hfirst].
  unfold bind at 1. rewrite for_loop_S. unfold bind at 1. rewrite Hfirst.
  destruct r as [s1|e]; [|reflexivity].
  pose proof (for_loop_head (callAt canvas mimeType (ndiv (nadd (lit 0) (lit 1)) (lit 2)))
                6 s1 [callAt canvas mimeType (ndiv (nadd (lit 0) (lit 1)) (lit 2))]
                eq_refl) as Hloop.
  destruct (for_loop 6 _ s1 _) as [[s|e] log]; cbn [snd] in Hloop;
    [|exact Hloop].
  unfold bind, call_toDataURL, lift, ret.
  destruct (negb (truthy (get (bestResult s) "blob"))).
  - destruct (dataURLtoBlob _) as [blob|e];
      [destruct (formatLabel "as " mimeType)|]; cbn [snd];
      now apply hd_error_app_some.
  - now destruct (formatLabel "as " mimeType).
Qed.
End Head.

Lemma tested_step {num : Type} `{JsNumber num} (encode : num -> DataURL)
    (budget : num) (b : Bisection num) :
  tested (bisectionStep encode budget b)
  = (tested b ++ [ndiv (nadd (low b) (high b)) (lit 2)])%list.
Proof. unfold bisectionStep. now destruct (withinBudget encode budget _). Qed.

Lemma tested_bisectionFrom_prefix {num : Type} `{JsNumber num}
    (encode : num -> DataURL) (budget : num) (n : nat) (b : Bisection num) :
  exists rest, tested (bisectionFrom encode budget n b) = (tested b ++ rest)%list.
Proof.
  revert b. induction n as [|n IH]; intros b; cbn [bisectionFrom].
  - exists []. now rewrite app_nil_r.
  - destruct (IH (bisectionStep encode budget b)) as [rest ->].
    rewrite tested_step, <- app_assoc. eauto.
Qed.

(** The second encode of a search is chosen by the budget. *)
Lemma compressImage_second {num : Type} `{JsNumber num} (host : Host num)
    (img : Image) (mimeType : string) (targetSize : num) (isPngConversion : bool) :
  let canvas := prepareCanvas img isPngConversion in
  let first := ndiv (nadd (lit 0) (lit 1)) (lit 2) in
  searchable mimeType = true ->
  (forall q, toDataURL host canvas mimeType (Some q) <> DataEmpty) ->
  nth_error (snd (compressImage host img mimeType targetSize isPngConversion [])) 1
  = Some (callAt canvas mimeType
            (if withinBudget (encodeAt host canvas mimeType) targetSize first
             then ndiv (nadd first (lit 1)) (lit 2)
             else ndiv (nadd (lit 0) first) (lit 2))).
Proof.
  intros canvas first Hsearch Hencodes. subst canvas first.
  rewrite (compressImage_search_log host img mimeType targetSize
             isPngConversion Hencodes Hsearch).
  set (encode := encodeAt host (prepareCanvas img isPngConversion) mimeType).
  change (bisection encode targetSize 7)
    with (bisectionFrom encode targetSize 5
            (bisectionStep encode targetSize
               (bisectionStep encode targetSize bisectionInit))).
  destruct (tested_bisectionFrom_prefix encode targetSize 5
              (bisectionStep encode targetSize
                 (bisectionStep encode targetSize bisectionInit)))
    as [rest ->].
  rewrite !tested_step.
  cbn [tested bisectionInit app map].
  unfold bisectionStep at 1 2. cbn [low high bisectionInit].
  now destruct (withinBudget encode targetSize _).
Qed.

Lemma compressCall_encodesAs {num : Type} `{JsNumber num} (host : Host num)
    (file : File) (img : Image) (mimeType : string) (flatten : bool) :
  compressCall host file img
  = compressImage host img mimeType
      (nmul (lit (inject_Z (size file))) (lit 0.10)) flatten ->
  encodesAs host file img mimeType flatten.
Proof.
  intros Hcall. unfold encodesAs. cbv zeta. rewrite Hcall. repeat split.
  - apply (compressImage_shape host img mimeType).
  - apply compressImage_head.
  - intros Hsearch Hencodes.
    now apply (compressImage_second host img mimeType).
Qed.

(** C4. A PNG is encoded as JPEG on a canvas filled with white before the
    image is drawn; any other file is encoded in its own format on a canvas
    that only has the image; in both cases the run makes its encodes on that
    canvas and measures them against a tenth of the size of the file. *)
Theorem compressCall_policy {num : Type} `{JsNumber num}
    (host : Host num) (file : File) (img : Image) :
  let dims := resizeDimensions (lit (inject_Z (img_width img)))
                               (lit (inject_Z (img_height img))) (lit 1920) in
  (type file = "image/png" ->
   cv_ops (prepareCanvas img true)
   = [FillRect "#FFFFFF" (lit 0) (lit 0) (fst dims) (snd dims);
      DrawImage img (lit 0) (lit 0) (fst dims) (snd dims)]
   /\ encodesAs host file img "image/jpeg" true)
  /\ (type file <> "image/png" ->
      cv_ops (prepareCanvas img false)
      = [DrawImage img (lit 0) (lit 0) (fst dims) (snd dims)]
      /\ encodesAs host file img (type file) false).
Proof.
  cbv zeta. split.
  - intros Hpng. split.
    + unfold prepareCanvas. now destruct (resizeDimensions _ _ _).
    + apply compressCall_encodesAs. unfold compressCall. now rewrite Hpng.
  - intros Hne. split.
    + unfold prepareCanvas. now destruct (resizeDimensions _ _ _).
    + apply compressCall_encodesAs. unfold compressCall.
      apply String.eqb_neq in Hne. now rewrite Hne.
Qed.

Lemma compressCall_policy_witness :
  let dims := resizeDimensions (lit (inject_Z (img_width demoImage)))
                               (lit (inject_Z (img_height demoImage)))
                               (lit 1920 : binary64) in
  (cv_ops (prepareCanvas demoImage true)
   = [FillRect "#FFFFFF" (lit 0) (lit 0) (fst dims) (snd dims);
      DrawImage demoImage (lit 0) (lit 0) (fst dims) (snd dims)]
   /\ encodesAs demoHost photoPng demoImage "image/jpeg" true)
  /\ (cv_ops (prepareCanvas demoImage false)
      = [DrawImage demoImage (lit 0) (lit 0) (fst dims) (snd dims)]
      /\ encodesAs demoHost holidayJpg demoImage (type holidayJpg) false).
Proof.
  split.
  - exact (proj1 (compressCall_policy demoHost photoPng demoImage) eq_refl).
  - refine (proj2 (compressCall_policy demoHost holidayJpg demoImage) _).
    discriminate.
Defined.

(** ** The page *)

Lemma changeFileExtension_string {num : Type} (filename mimeType : string) :
  exists out, @changeFileExtension num filename (VStr mimeType) = Ok out.
Proof. unfold changeFileExtension, subtype_of. eexists. reflexivity. Qed.

(** A pipeline that fails leaves the page as it is. *)
Lemma processImage_fails {num : Type} `{JsNumber num} (host : Host num)
    (file : File) (p : Page num) :
  pipelineFails host file = true ->
  exists e, processImage host file p = (Throw e, p).
Proof.
  unfold pipelineFails, processImage, bind, lift.
  destruct (decode host file) as [img|]; [|intros _; eexists; reflexivity].
  destruct (fst (compressCall host file img [])) as [result|e];
    [|intros _; eexists; reflexivity].
  unfold displayPreviewCard, bind, lift.
  destruct (get result "blob"); try discriminate;
    intros _; eexists; reflexivity.
Qed.

(** No run of [processImage] reaches the push or [checkCompletion]: it ends
    in the load error, in the error of [compressImage] or of a missing
    blob, or else at line 55, which reads [result.mimeType], a property no
    result has. *)
Lemma processImage_records_nothing {num : Type} `{JsNumber num}
    (host : Host num) (file : File) (p : Page num) :
  fst (processImage host file p) = Throw (pipelineError host file)
  /\ compressedFilesForZip (snd (processImage host file p))
     = compressedFilesForZip p
  /\ filesToProcess (snd (processImage host file p)) = filesToProcess p
  /\ filesProcessed (snd (processImage host file p)) = filesProcessed p
  /\ downloadAllBtn_display (snd (processImage host file p))
     = downloadAllBtn_display p.
Proof.
  unfold processImage, pipelineError, bind, lift.
  destruct (decode host file) as [img|]; [|repeat split].
  pose proof (compressImage_shape host img) as Hshape.
  assert (Hmime : forall result,
             fst (compressCall host file img []) = Ok result ->
             get result "mimeType" = VUndefined).
  { unfold compressCall. destruct (String.eqb (type file) "image/png");
      apply Hshape. }
  destruct (fst (compressCall host file img [])) as [result|e];
    [|repeat split].
  rewrite (Hmime result eq_refl).
  unfold displayPreviewCard, bind, lift.
  destruct (get result "blob") as [| |str|d|n|blob]; cbn [as_blob];
    repeat split; reflexivity.
Qed.

Lemma settleAll_app {num : Type} `{JsNumber num} (host : Host num)
    (before after : list File) (p : Page num) :
  settleAll host (before ++ after)%list p
  = settleAll host after (settleAll host before p).
Proof. unfold settleAll. apply fold_left_app. Qed.

Lemma settleAll_cons {num : Type} `{JsNumber num} (host : Host num)
    (file : File) (after : list File) (p : Page num) :
  settleAll host (file :: after) p = settleAll host after (settle host p file).
Proof. reflexivity. Qed.

(** C7, as the script has it. A pipeline that fails rejects its promise and
    leaves the page as it was: no card, no outcome, the number of files to
    process and the number of files processed both unchanged; the other
    pipelines settle as if it had not been there. *)
Theorem processImage_failure_isolated {num : Type} `{JsNumber num}
    (host : Host num) (file : File) :
  pipelineFails host file = true ->
  (forall p, exists e, processImage host file p = (Throw e, p))
  /\ (forall p, settle host p file = p)
  /\ (forall p,
        filesToProcess (settle host p file) = filesToProcess p
        /\ filesProcessed (settle host p file) = filesProcessed p
        /\ compressedFilesForZip (settle host p file) = compressedFilesForZip p)
  /\ (forall before after p,
        settleAll host (before ++ file :: after)%list p
        = settleAll host (before ++ after)%list p).
Proof.
  intros Hfails.
  assert (Hsettle : forall p, settle host p file = p).
  { intros p. unfold settle.
    destruct (processImage_fails host file p Hfails) as [e ->]. reflexivity. }
  repeat split.
  - intros p. exact (processImage_fails host file p Hfails).
  - exact Hsettle.
  - now rewrite Hsettle.
  - now rewrite Hsettle.
  - now rewrite Hsettle.
  - intros before after p. rewrite !settleAll_app, settleAll_cons.
    now rewrite Hsettle.
Qed.

Lemma processImage_failure_isolated_witness :
  pipelineFails demoHost brokenPng = true
  /\ forall p, settle demoHost p brokenPng = p.
Proof.
  split; [reflexivity|].
  exact (proj1 (proj2 (processImage_failure_isolated demoHost brokenPng eq_refl))).
Defined.

(** C7, as stated: the count of processed files advances for a failed
    image. The image [broken.png] does not decode; after its pipeline the
    count is what it was, 0, not 1. *)
Lemma processImage_failure_not_counted :
  pipelineFails demoHost brokenPng = true
  /\ filesProcessed (fst (imageInput_change (Some [brokenPng; holidayJpg]) emptyPage))
     = 0%nat
  /\ filesProcessed
       (settle demoHost
          (fst (imageInput_change (Some [brokenPng; holidayJpg]) emptyPage))
          brokenPng)
     = 0%nat
  /\ filesProcessed
       (settle demoHost
          (fst (imageInput_change (Some [brokenPng; holidayJpg]) emptyPage))
          brokenPng)
     <> S (filesProcessed
            (fst (imageInput_change (Some [brokenPng; holidayJpg]) emptyPage))).
Proof. vm_compute. repeat split. discriminate. Qed.

(** ** The batch *)

Lemma imageInput_change_selection {num : Type} (files : list File) (p : Page num) :
  files <> [] ->
  imageInput_change (Some files) p
  = ({| previewsContainer := [];
        compressedFilesForZip := [];
        filesToProcess := length (List.filter isImage files);
        filesProcessed := 0;
        downloadAllBtn_display := "none" |},
     List.filter isImage files).
Proof.
  intros Hfiles. unfold imageInput_change.
  destruct files as [|file files]; [congruence|]. cbn [length Nat.eqb].
  fold isImage. cbn [filesToProcess].
  destruct (List.filter isImage (file :: files)) as [|image images];
    reflexivity.
Qed.

Lemma recordOutcome_invariant {num : Type} (p : Page num) (entry : ZipEntry num) :
  batchInvariant p -> (filesProcessed p < filesToProcess p)%nat ->
  batchInvariant (recordOutcome p entry)
  /\ filesProcessed (recordOutcome p entry) = S (filesProcessed p)
  /\ filesToProcess (recordOutcome p entry) = filesToProcess p.
Proof.
  intros (Hle & Hlen & Hshown) Hlt.
  assert (Hhidden : downloadAllBtn_display p <> "block").
  { intros Hb. apply Hshown in Hb as [Heq _]. lia. }
  unfold recordOutcome, pushZip, checkCompletion, bind, modify.
  cbn [snd fst filesProcessed filesToProcess compressedFilesForZip].
  rewrite length_app. cbn [length].
  replace (0 <? length (compressedFilesForZip p) + 1)%nat with true
    by (symmetry; apply Nat.ltb_lt; lia).
  rewrite andb_true_r.
  destruct (S (filesProcessed p) =? filesToProcess p)%nat eqn:Hdone;
    unfold batchInvariant;
    cbn [filesProcessed filesToProcess compressedFilesForZip
         downloadAllBtn_display];
    rewrite length_app; cbn [length].
  - apply Nat.eqb_eq in Hdone. repeat split; try lia.
    intros E. now apply app_eq_nil in E as [_ E].
  - apply Nat.eqb_neq in Hdone. repeat split; try lia; contradiction.
Qed.

Lemma recordOutcomes_invariant {num : Type} (entries : list (ZipEntry num)) :
  forall p : Page num,
  batchInvariant p ->
  (filesProcessed p + length entries <= filesToProcess p)%nat ->
  batchInvariant (recordOutcomes entries p).
Proof.
  induction entries as [|entry entries IH]; intros p Hinv Hroom; [exact Hinv|].
  cbn [length] in Hroom. unfold recordOutcomes. cbn [fold_left].
  destruct (recordOutcome_invariant p entry Hinv) as (Hinv' & Hfp & Hftp); [lia|].
  apply IH; [exact Hinv' | lia].
Qed.

(** A selection sets the number of files to process to the number of
    its image files and starts a pipeline for these only; from there, while
    no more outcomes are recorded than files are expected, the button is
    shown exactly when the number of files processed equals the number to
    process and there is an outcome. *)
Theorem export_when_complete {num : Type} (files : list File) (p : Page num)
    (entries : list (ZipEntry num)) :
  files <> [] ->
  (length entries <= length (List.filter isImage files))%nat ->
  let started := imageInput_change (Some files) p in
  let p' := recordOutcomes entries (fst started) in
  filesToProcess (fst started) = length (List.filter isImage files)
  /\ snd started = List.filter isImage files
  /\ (downloadAllBtn_display p' = "block"
      <-> filesProcessed p' = filesToProcess p' /\ compressedFilesForZip p' <> []).
Proof.
  intros Hfiles Hroom started p'. subst started p'.
  rewrite (imageInput_change_selection files p Hfiles). cbn [fst snd].
  split; [reflexivity|]. split; [reflexivity|].
  eapply recordOutcomes_invariant.
  - unfold batchInvariant.
    cbn [filesProcessed filesToProcess compressedFilesForZip
         downloadAllBtn_display length].
    split; [lia|]. split; [reflexivity|].
    split; [discriminate | intros [_ Hne]; congruence].
  - cbn [filesProcessed filesToProcess]. lia.
Qed.

Lemma export_when_complete_witness :
  let started := imageInput_change (Some [photoPng; notesTxt; holidayJpg]) demoPage in
  let p' := recordOutcomes demoEntries (fst started) in
  filesToProcess (fst started)
  = length (List.filter isImage [photoPng; notesTxt; holidayJpg])
  /\ snd started = List.filter isImage [photoPng; notesTxt; holidayJpg]
  /\ (downloadAllBtn_display p' = "block"
      <-> filesProcessed p' = filesToProcess p' /\ compressedFilesForZip p' <> []).
Proof.
  apply (export_when_complete [photoPng; notesTxt; holidayJpg] demoPage demoEntries).
  - discriminate.
  - vm_compute. lia.
Defined.

(** C9, as the script has it. A selection that is not empty and has no
    image file starts no pipeline, and resets the page all the same: the
    previews and the outcomes are emptied, both counts are 0 and the button
    is hidden. *)
Theorem imageInput_change_without_images {num : Type} (files : list File)
    (p : Page num) :
  files <> [] ->
  List.filter isImage files = [] ->
  imageInput_change (Some files) p
  = ({| previewsContainer := [];
        compressedFilesForZip := [];
        filesToProcess := 0;
        filesProcessed := 0;
        downloadAllBtn_display := "none" |},
     []).
Proof.
  intros Hfiles Hnone.
  rewrite (imageInput_change_selection files p Hfiles), Hnone. reflexivity.
Qed.

Lemma imageInput_change_without_images_witness :
  imageInput_change (Some [notesTxt]) photoPage
  = ({| previewsContainer := [];
        compressedFilesForZip := [];
        filesToProcess := 0;
        filesProcessed := 0;
        downloadAllBtn_display := "none" |},
     []).
Proof.
  apply (imageInput_change_without_images [notesTxt] photoPage).
  - discriminate.
  - reflexivity.
Defined.

(** C9, as stated: the page is left unchanged. Once [photo.png] was
    selected and its pipeline has settled, the page shows one card and
    expects one file; a selection of one text file then removes the card
    and sets the number of files expected to 0. *)
Lemma imageInput_change_resets :
  List.filter isImage [notesTxt] = []
  /\ length (previewsContainer photoPage) = 1%nat
  /\ filesToProcess photoPage = 1%nat
  /\ previewsContainer (fst (imageInput_change (Some [notesTxt]) photoPage)) = []
  /\ filesToProcess (fst (imageInput_change (Some [notesTxt]) photoPage)) = 0%nat
  /\ fst (imageInput_change (Some [notesTxt]) photoPage) <> photoPage.
Proof.
  repeat split. intros E.
  apply (f_equal (fun p => filesToProcess p)) in E. vm_compute in E.
  discriminate E.
Qed.


(** ** The script on concrete inputs, in the arithmetic of the browser *)

(** An image of 3000 by 2000 pixels is drawn at 1920 by 1280. *)
Example resize_3000_by_2000 :
  resizeDimensions (lit 3000 : binary64) (lit 2000) (lit 1920)
  = (lit 1920, lit 1280).
Proof. vm_compute. reflexivity. Qed.

(** The budget of a file of 2,000,000 bytes is 200,000 bytes. *)
Example budget_of_two_million :
  nmul (lit (inject_Z 2000000)) (lit 0.10) = (lit 200000 : binary64).
Proof. vm_compute. reflexivity. Qed.

(** With 40 bytes up to quality 0.3 and 400 above, a budget of 100 bytes
    is met at 38/128, the highest of the tested qualities below 0.3. *)
Example search_reaches_38_128 :
  match fst (compressImage demoHost demoImage "image/jpeg" (lit 100) true []) with
  | Ok result => get result "quality" = VNum (lit (38 # 128))
  | Throw _ => False
  end.
Proof. vm_compute. reflexivity. Qed.

(** A BMP of 500 bytes is encoded twice without a quality, and its budget,
    50 bytes, is not enforced: the blob returned has 900 bytes. *)
Example compressCall_icon :
  let run := compressCall demoHost iconBmp demoImage [] in
  length (snd run) = 2%nat
  /\ match fst run with
     | Ok result =>
         get result "blob"
         = VBlob {| blob_bytes := zeros 900; blob_type := "image/bmp" |}
     | Throw _ => False
     end.
Proof. vm_compute. split; reflexivity. Qed.

(** The pipeline of a PNG that decodes and compresses shows its card, then
    throws on [result.mimeType]: nothing is pushed and nothing is counted. *)
Example processImage_photo :
  let run := processImage demoHost photoPng emptyPage in
  fst run = Throw (TypeError "Cannot read properties of undefined (reading 'split')")
  /\ length (previewsContainer (snd run)) = 1%nat
  /\ compressedFilesForZip (snd run) = []
  /\ filesProcessed (snd run) = 0%nat.
Proof. vm_compute. repeat split. Qed.

(** * More properties of the script *)

(** ** What a pipeline leaves on the page *)

Lemma resultBlob_pipelineFails {num : Type} `{JsNumber num} (host : Host num)
    (file : File) :
  pipelineFails host file = false <-> is_Some (resultBlob host file).
Proof.
  unfold pipelineFails, resultBlob.
  destruct (decode host file) as [img|]; [|split; [discriminate | intros [? [=]]]].
  destruct (fst (compressCall host file img [])) as [result|e];
    [|split; [discriminate | intros [? [=]]]].
  destruct (get result "blob"); split; try discriminate; try (intros [? [=]]);
    eauto.
Qed.

(** The page after a pipeline: a card more when the pipeline got a blob,
    and nothing else. *)
Lemma settle_page {num : Type} `{JsNumber num} (host : Host num) (file : File)
    (p : Page num) :
  compressedFilesForZip (settle host p file) = compressedFilesForZip p
  /\ filesToProcess (settle host p file) = filesToProcess p
  /\ filesProcessed (settle host p file) = filesProcessed p
  /\ downloadAllBtn_display (settle host p file) = downloadAllBtn_display p
  /\ match resultBlob host file with
     | None => previewsContainer (settle host p file) = previewsContainer p
     | Some blob =>
         exists card downloadFileName,
           previewsContainer (settle host p file)
           = (previewsContainer p ++ [card])%list
           /\ changeFileExtension (num := num) (name file) (VStr (blob_type blob))
              = Ok downloadFileName
           /\ card_download card = "compressed_" ++ downloadFileName
           /\ card_originalName card = name file
           /\ card_originalSize card = size file
           /\ card_originalSrc card = createObjectURL host file
           /\ card_compressedSize card = blob_size blob
     end.
Proof.
  unfold settle, resultBlob, processImage, bind, lift.
  destruct (decode host file) as [img|]; [|repeat split].
  pose proof (compressImage_shape host img) as Hshape.
  assert (Hmime : forall result,
             fst (compressCall host file img []) = Ok result ->
             get result "mimeType" = VUndefined).
  { unfold compressCall. destruct (String.eqb (type file) "image/png");
      apply Hshape. }
  destruct (fst (compressCall host file img [])) as [result|e]; [|repeat split].
  rewrite (Hmime result eq_refl).
  unfold displayPreviewCard, bind, lift.
  destruct (get result "blob") as [| |s|d|n|blob]; cbn [as_blob];
    try (repeat split; fail).
  destruct (changeFileExtension_string (num := num) (name file) (blob_type blob))
    as [out Hout].
  rewrite Hout. unfold modify. cbn.
  repeat split. eexists _, out. repeat split.
Qed.

Lemma settleAll_snoc {num : Type} `{JsNumber num} (host : Host num)
    (order : list File) (file : File) (p : Page num) :
  settleAll host (order ++ [file])%list p
  = settle host (settleAll host order p) file.
Proof. unfold settleAll. now rewrite fold_left_app. Qed.

(** After a selection, whatever pipelines settle and in whatever order, the
    button stays hidden, no outcome is recorded and no file is counted as
    processed. *)
Theorem batch_never_completes {num : Type} `{JsNumber num} (host : Host num)
    (files order : list File) (p : Page num) :
  files <> [] ->
  let p' := settleAll host order (fst (imageInput_change (Some files) p)) in
  downloadAllBtn_display p' = "none"
  /\ compressedFilesForZip p' = []
  /\ filesProcessed p' = 0%nat
  /\ filesToProcess p' = length (List.filter isImage files).
Proof.
  intros Hfiles p'. subst p'.
  rewrite (imageInput_change_selection files p Hfiles). cbn [fst].
  induction order as [|file order IH] using rev_ind; [repeat split|].
  rewrite settleAll_snoc.
  destruct (settle_page host file (settleAll host order
              {| previewsContainer := []; compressedFilesForZip := [];
                 filesToProcess := length (List.filter isImage files);
                 filesProcessed := 0; downloadAllBtn_display := "none" |}))
    as (Hz & Ht & Hp & Hd & _).
  rewrite Hz, Ht, Hp, Hd. exact IH.
Qed.

Lemma batch_never_completes_witness :
  let p' := settleAll demoHost [holidayJpg; photoPng]
              (fst (imageInput_change (Some [photoPng; notesTxt; holidayJpg]) demoPage)) in
  downloadAllBtn_display p' = "none"
  /\ compressedFilesForZip p' = []
  /\ filesProcessed p' = 0%nat
  /\ filesToProcess p' = length (List.filter isImage [photoPng; notesTxt; holidayJpg]).
Proof.
  apply (batch_never_completes demoHost [photoPng; notesTxt; holidayJpg]
           [holidayJpg; photoPng] demoPage).
  discriminate.
Defined.

(** The previews grow by one card for each pipeline that got a blob, and
    by none for the others. *)
Theorem previews_count {num : Type} `{JsNumber num} (host : Host num)
    (order : list File) (p : Page num) :
  length (previewsContainer (settleAll host order p))
  = (length (previewsContainer p)
     + length (List.filter (fun file => negb (pipelineFails host file)) order))%nat.
Proof.
  induction order as [|file order IH] using rev_ind; [simpl; lia|].
  rewrite settleAll_snoc, List.filter_app, length_app. cbn [List.filter].
  destruct (settle_page host file (settleAll host order p)) as (_ & _ & _ & _ & Hc).
  pose proof (resultBlob_pipelineFails host file) as Hf.
  destruct (resultBlob host file) as [blob|].
  - destruct Hc as (card & dl & -> & _).
    rewrite (proj2 Hf) by eauto. rewrite length_app. cbn [negb length]. lia.
  - rewrite Hc. destruct (pipelineFails host file); [cbn [negb length]; lia|].
    destruct (proj1 Hf eq_refl) as [? [=]].
Qed.



(** ** The batch state *)

Lemma recordOutcome_page {num : Type} (p : Page num) (entry : ZipEntry num) :
  compressedFilesForZip (recordOutcome p entry)
  = (compressedFilesForZip p ++ [entry])%list
  /\ filesProcessed (recordOutcome p entry) = S (filesProcessed p)
  /\ filesToProcess (recordOutcome p entry) = filesToProcess p
  /\ previewsContainer (recordOutcome p entry) = previewsContainer p
  /\ (downloadAllBtn_display p = "block" ->
      downloadAllBtn_display (recordOutcome p entry) = "block").
Proof.
  unfold recordOutcome, pushZip, checkCompletion, bind, modify.
  cbn [snd fst filesProcessed filesToProcess compressedFilesForZip].
  destruct (_ && _); cbn; repeat split; auto.
Qed.

Lemma recordOutcomes_cons {num : Type} (entry : ZipEntry num)
    (entries : list (ZipEntry num)) (p : Page num) :
  recordOutcomes (entry :: entries) p
  = recordOutcomes entries (recordOutcome p entry).
Proof. reflexivity. Qed.

(** The ends of pipelines only add: the outcomes are appended in the order
    the pipelines end, each end counts one file, the previews and the
    number of files expected are not touched, and a button that is shown is
    never hidden again. *)
Theorem recordOutcomes_append {num : Type} (entries : list (ZipEntry num))
    (p : Page num) :
  compressedFilesForZip (recordOutcomes entries p)
  = (compressedFilesForZip p ++ entries)%list
  /\ filesProcessed (recordOutcomes entries p)
     = (filesProcessed p + length entries)%nat
  /\ filesToProcess (recordOutcomes entries p) = filesToProcess p
  /\ previewsContainer (recordOutcomes entries p) = previewsContainer p
  /\ (downloadAllBtn_display p = "block" ->
      downloadAllBtn_display (recordOutcomes entries p) = "block").
Proof.
  revert p. induction entries as [|entry entries IH]; intros p.
  - cbn. rewrite app_nil_r, Nat.add_0_r. repeat split; auto.
  - rewrite recordOutcomes_cons.
    destruct (recordOutcome_page p entry) as (Hz & Hp & Ht & Hv & Hd).
    destruct (IH (recordOutcome p entry)) as (Hz' & Hp' & Ht' & Hv' & Hd').
    rewrite Hz', Hp', Ht', Hv', Hz, Hp, Ht, Hv, <- app_assoc. cbn [length app].
    repeat split; auto; lia.
Qed.

(** A count of files processed that has passed the number expected never
    shows the button: ends of pipelines of an earlier selection that come
    in after a selection without images leave it hidden for good. *)
Theorem recordOutcomes_overrun {num : Type} (entries : list (ZipEntry num))
    (p : Page num) :
  (filesToProcess p <= filesProcessed p)%nat ->
  downloadAllBtn_display (recordOutcomes entries p) = downloadAllBtn_display p.
Proof.
  revert p. induction entries as [|entry entries IH]; intros p Hover;
    [reflexivity|].
  rewrite recordOutcomes_cons.
  destruct (recordOutcome_page p entry) as (_ & Hp & Ht & _).
  rewrite IH by lia.
  unfold recordOutcome, pushZip, checkCompletion, bind, modify.
  cbn [snd fst filesProcessed filesToProcess compressedFilesForZip].
  replace (S (filesProcessed p) =? filesToProcess p)%nat with false
    by (symmetry; apply Nat.eqb_neq; lia).
  reflexivity.
Qed.

Lemma recordOutcomes_overrun_witness :
  downloadAllBtn_display
    (recordOutcomes demoEntries (fst (imageInput_change (Some [notesTxt]) demoPage)))
  = downloadAllBtn_display (fst (imageInput_change (Some [notesTxt]) demoPage)).
Proof.
  apply (recordOutcomes_overrun demoEntries
           (fst (imageInput_change (Some [notesTxt]) demoPage))).
  vm_compute. lia.
Defined.

(** ** The selection *)

(** What a selection that is not empty leaves does not depend on the page
    before it: earlier previews, outcomes and counts are discarded. *)
Theorem imageInput_change_forgets {num : Type} (files : list File)
    (p p' : Page num) :
  files <> [] ->
  imageInput_change (Some files) p = imageInput_change (Some files) p'
  /\ fst (imageInput_change (Some files) p) = resetPage files
  /\ List.Forall (fun file => isImage file = true)
                 (snd (imageInput_change (Some files) p)).
Proof.
  intros Hfiles. rewrite !(imageInput_change_selection files _ Hfiles).
  repeat split. cbn [snd]. apply List.Forall_forall.
  intros file Hin. now apply List.filter_In in Hin.
Qed.

Lemma imageInput_change_forgets_witness :
  imageInput_change (Some [photoPng; notesTxt]) demoPage
  = imageInput_change (Some [photoPng; notesTxt]) emptyPage
  /\ fst (imageInput_change (Some [photoPng; notesTxt]) demoPage)
     = resetPage [photoPng; notesTxt]
  /\ List.Forall (fun file => isImage file = true)
                 (snd (imageInput_change (Some [photoPng; notesTxt]) demoPage)).
Proof.
  apply (imageInput_change_forgets [photoPng; notesTxt] demoPage emptyPage).
  discriminate.
Defined.

(** The page is the same after a [change] event exactly when the selection
    is null or empty, or the page was already the one the selection resets
    to. *)
Theorem imageInput_change_fixes {num : Type} (files : option (list File))
    (p : Page num) :
  fst (imageInput_change files p) = p
  <-> files = None \/ files = Some []
      \/ exists selected, files = Some selected /\ p = resetPage selected.
Proof.
  destruct files as [[|file files]|].
  - split; auto.
  - rewrite imageInput_change_selection by discriminate. cbn [fst]. split.
    + intros <-. right. right. now exists (file :: files).
    + intros [[=]|[[=]|(selected & [= <-] & ->)]]. reflexivity.
  - split; auto.
Qed.

(** ** The archive *)








(** ** File names *)

Lemma changeFileExtension_value {num : Type} (filename mimeType : string) :
  @changeFileExtension num filename (VStr mimeType)
  = Ok (JsString.substring filename 0 (JsString.lastIndexOf "." filename)
        ++ "." ++ to_string (JsString.split "/" mimeType !! 1%nat)).
Proof. reflexivity. Qed.

Lemma baseName_dotted (base suffix : string) :
  contains "." suffix = false ->
  JsString.substring (base ++ "." ++ suffix) 0
    (JsString.lastIndexOf "." (base ++ "." ++ suffix)) = base.
Proof.
  intros Hdot. change (base ++ "." ++ suffix) with (base ++ String "." suffix).
  now rewrite (lastIndexOf_last _ _ _ Hdot), js_substring_prefix.
Qed.

(** Two file names that differ only after their last dot get the same
    output name, whatever the mime type: [photo.png] and [photo.jpg] are
    not told apart. *)
Theorem changeFileExtension_forgets {num : Type} (base suffix1 suffix2 : string)
    (mimeType : JSVal num) :
  contains "." suffix1 = false -> contains "." suffix2 = false ->
  changeFileExtension (base ++ "." ++ suffix1) mimeType
  = changeFileExtension (base ++ "." ++ suffix2) mimeType.
Proof.
  intros H1 H2. unfold changeFileExtension.
  destruct (subtype_of mimeType) as [ext|e]; [|reflexivity].
  now rewrite (baseName_dotted _ _ H1), (baseName_dotted _ _ H2).
Qed.

Lemma changeFileExtension_forgets_witness :
  @changeFileExtension Q ("photo" ++ "." ++ "png") (VStr "image/jpeg")
  = @changeFileExtension Q ("photo" ++ "." ++ "jpg") (VStr "image/jpeg").
Proof.
  apply (@changeFileExtension_forgets Q "photo" "png" "jpg" (VStr "image/jpeg"));
    reflexivity.
Defined.

(** An output name is left as it is by a second change to the same type:
    for a subtype without a dot the function is idempotent on every file
    name. *)
Theorem changeFileExtension_idempotent {num : Type}
    (filename t sub out : string) :
  contains "/" t = false -> contains "/" sub = false ->
  contains "." sub = false ->
  @changeFileExtension num filename (VStr (t ++ "/" ++ sub)) = Ok out ->
  @changeFileExtension num out (VStr (t ++ "/" ++ sub)) = Ok out.
Proof.
  intros Ht Hsub Hdot. rewrite !changeFileExtension_value.
  change (t ++ "/" ++ sub) with (t ++ String "/" sub).
  rewrite (split_two _ _ _ Ht Hsub). cbn [lookup list_lookup to_string].
  intros [= <-]. now rewrite (baseName_dotted _ _ Hdot).
Qed.

Lemma changeFileExtension_idempotent_witness :
  @changeFileExtension Q "holiday.2019.jpeg" (VStr ("image" ++ "/" ++ "jpeg"))
  = Ok "holiday.2019.jpeg".
Proof.
  apply (changeFileExtension_idempotent "holiday.2019.png" "image" "jpeg");
    reflexivity.
Defined.

(** With a type that has no slash the extension is the text [undefined]. *)
Theorem changeFileExtension_no_subtype {num : Type}
    (base suffix mimeType : string) :
  contains "/" mimeType = false -> contains "." suffix = false ->
  @changeFileExtension num (base ++ "." ++ suffix) (VStr mimeType)
  = Ok (base ++ "." ++ "undefined").
Proof.
  intros Hslash Hdot.
  rewrite changeFileExtension_value, (baseName_dotted _ _ Hdot).
  now rewrite (split_absent _ _ Hslash).
Qed.

Lemma changeFileExtension_no_subtype_witness :
  @changeFileExtension Q ("scan" ++ "." ++ "tiff") (VStr "")
  = Ok ("scan" ++ "." ++ "undefined").
Proof.
  apply (changeFileExtension_no_subtype "scan" "tiff" ""); reflexivity.
Defined.

(** ** Errors of [compressImage] *)

Lemma unsearchable_without_slash (mimeType : string) :
  contains "/" mimeType = false -> searchable mimeType = false.
Proof.
  intros Hslash. unfold searchable.
  destruct (String.eqb mimeType "image/jpeg") eqn:E1.
  { apply String.eqb_eq in E1. subst. discriminate. }
  destruct (String.eqb mimeType "image/webp") eqn:E2.
  { apply String.eqb_eq in E2. subst. discriminate. }
  reflexivity.
Qed.

(** On a type without a slash [compressImage] encodes twice and then
    throws, building the format label. *)
Theorem compressImage_without_slash {num : Type} `{JsNumber num}
    (host : Host num) (img : Image) (mimeType : string) (targetSize : num)
    (isPngConversion : bool) :
  contains "/" mimeType = false ->
  let canvas := prepareCanvas img isPngConversion in
  compressImage host img mimeType targetSize isPngConversion []
  = (Throw (TypeError "Cannot read properties of undefined (reading 'toUpperCase')"),
     [CallToBlob canvas mimeType; CallToDataURL canvas mimeType None]).
Proof.
  intros Hslash canvas. subst canvas.
  pose proof (unsearchable_without_slash _ Hslash) as Hsearch.
  unfold searchable in Hsearch. apply orb_false_iff in Hsearch as [E1 E2].
  unfold compressImage. rewrite E1, E2. cbn [negb andb].
  unfold bind, call_toBlob, call_toDataURL, lift, formatLabel.
  now rewrite (split_absent _ _ Hslash).
Qed.

Lemma compressImage_without_slash_witness :
  let canvas := prepareCanvas demoImage false in
  compressImage demoHost demoImage "" (lit 50) false []
  = (Throw (TypeError "Cannot read properties of undefined (reading 'toUpperCase')"),
     [CallToBlob canvas ""; CallToDataURL canvas "" None]).
Proof.
  apply (compressImage_without_slash demoHost demoImage "" (lit 50) false).
  reflexivity.
Defined.

(** When the first encode of the search is ["data:,"], [compressImage]
    throws after that one encode: no other quality and no fallback is
    tried. *)
Theorem compressImage_no_data {num : Type} `{JsNumber num}
    (host : Host num) (img : Image) (mimeType : string) (targetSize : num)
    (isPngConversion : bool) :
  searchable mimeType = true ->
  let canvas := prepareCanvas img isPngConversion in
  let first := ndiv (nadd (lit 0) (lit 1)) (lit 2) in
  toDataURL host canvas mimeType (Some first) = DataEmpty ->
  compressImage host img mimeType targetSize isPngConversion []
  = (Throw (TypeError "Cannot read properties of null (reading '1')"),
     [CallToDataURL canvas mimeType (Some first)]).
Proof.
  intros Hsearch canvas first Hempty. subst canvas first.
  unfold compressImage.
  replace (negb (String.eqb mimeType "image/jpeg")
           && negb (String.eqb mimeType "image/webp")) with false
    by (destruct (searchable_cases _ Hsearch) as [E|E]; rewrite E; reflexivity).
  unfold bind at 1. cbn [for_loop]. unfold bind at 1.
  unfold searchStep at 1. unfold bind at 1. unfold call_toDataURL at 1.
  cbn [searchInit minQuality maxQuality]. rewrite Hempty.
  reflexivity.
Qed.

Lemma compressImage_no_data_witness :
  let canvas := prepareCanvas demoImage false in
  let first := ndiv (nadd (lit 0) (lit 1)) (lit 2) in
  compressImage blankHost demoImage "image/jpeg" (lit 50) false []
  = (Throw (TypeError "Cannot read properties of null (reading '1')"),
     [CallToDataURL canvas "image/jpeg" (Some first)]).
Proof.
  apply (compressImage_no_data blankHost demoImage "image/jpeg" (lit 50) false);
    reflexivity.
Defined.

(** ** The budget is met only by luck of the encodes *)

(** When every encode returns data, the blob returned is within the budget
    exactly when the encode of some call of the run is: the fallback is
    returned without a look at its size. *)
Theorem compressImage_within_budget {num : Type} `{JsNumber num}
    (host : Host num) (img : Image) (mimeType : string) (targetSize : num)
    (isPngConversion : bool) :
  searchable mimeType = true ->
  (forall q, toDataURL host (prepareCanvas img isPngConversion) mimeType (Some q)
             <> DataEmpty) ->
  let canvas := prepareCanvas img isPngConversion in
  let encode := encodeAt host canvas mimeType in
  let run := compressImage host img mimeType targetSize isPngConversion [] in
  exists result blob,
    fst run = Ok result
    /\ get result "blob" = VBlob blob
    /\ (nle (lit (inject_Z (blob_size blob))) targetSize = true
        <-> exists q, In (callAt canvas mimeType q) (snd run)
                      /\ withinBudget encode targetSize q = true).
Proof.
  intros Hsearch Hencodes canvas encode run. subst canvas encode run.
  pose proof (compressImage_search_log host img mimeType targetSize
                isPngConversion Hencodes Hsearch) as Hlog.
  destruct (compressImage_search host img mimeType targetSize isPngConversion
              Hencodes Hsearch []) as (label & _ & Hrun).
  cbv zeta in Hrun.
  pose proof (bestSound_bisection host img mimeType targetSize isPngConversion 7)
    as Hsound.
  unfold bestSound in Hsound.
  rewrite Hlog, Hrun. clear Hlog Hrun.
  destruct (best (bisection _ targetSize 7)) as [[src q]|] eqn:Hbest.
  - destruct Hsound as (_ & Hin & -> & Hsat).
    eexists _, _. split; [reflexivity|].
    rewrite get_format_other by discriminate. split; [reflexivity|].
    split; [|intros _; exact Hsat].
    intros _. exists q. split; [|exact Hsat].
    rewrite app_nil_r. now apply in_map.
  - eexists _, _. split; [reflexivity|].
    rewrite get_format_other by discriminate. split; [reflexivity|].
    split.
    + intros Hsat. exists (lit 0.1). split; [|exact Hsat].
      apply in_or_app. right. now left.
    + intros (q & [Hq|[Hq|[]]]%in_app_or & Hsat).
      * apply in_callAt in Hq. rewrite (Hsound _ Hq) in Hsat. discriminate.
      * unfold callAt in Hq. injection Hq as <-. exact Hsat.
Qed.

Lemma compressImage_within_budget_witness :
  let canvas := prepareCanvas demoImage false in
  let encode := encodeAt demoHost canvas "image/webp" in
  let run := compressImage demoHost demoImage "image/webp" (lit 10) false [] in
  exists result blob,
    fst run = Ok result
    /\ get result "blob" = VBlob blob
    /\ (nle (lit (inject_Z (blob_size blob))) (lit 10) = true
        <-> exists q, In (callAt canvas "image/webp" q) (snd run)
                      /\ withinBudget encode (lit 10) q = true).
Proof.
  apply (compressImage_within_budget demoHost demoImage "image/webp" (lit 10) false).
  - reflexivity.
  - intros q. discriminate.
Defined.


(** ** The grid of the search *)

Lemma b64_same_eq (a b : binary64) : b64_same a b = true -> a = b.
Proof.
  destruct a as [s|s| |s m e], b as [s'|s'| |s' m' e']; cbn; try discriminate;
    try reflexivity.
  - intros ->%Bool.eqb_prop. reflexivity.
  - intros ->%Bool.eqb_prop. reflexivity.
  - intros [[->%Bool.eqb_prop ->%Pos.eqb_eq]%andb_true_iff ->%Z.eqb_eq]%andb_true_iff.
    reflexivity.
Qed.

(** Checked on each of the 128 lists of seven answers. *)
Lemma walks_onGrid :
  forallb (fun answers => onGrid (walk answers walkInit)) (answerLists 7) = true.
Proof. vm_compute. reflexivity. Qed.

Lemma in_gridQualities (g : binary64) :
  In g gridQualities ->
  exists k, (1 <= k <= 127)%nat /\ g = lit (Z.of_nat k # 128).
Proof.
  unfold gridQualities. intros (k & <- & Hk)%in_map_iff.
  apply in_seq in Hk. exists k. split; [lia | reflexivity].
Qed.

Lemma walk_onGrid (answers : list bool) :
  length answers = 7%nat -> onGrid (walk answers walkInit) = true.
Proof.
  intros Hlen. pose proof walks_onGrid as Hgrid.
  rewrite forallb_forall in Hgrid.
  apply Hgrid. rewrite <- Hlen. apply in_answerLists.
Qed.

Lemma bisection_onGrid (encode : binary64 -> DataURL) (budget : binary64) :
  let b := bisection encode budget 7 in
  (forall q, In q (tested b) ->
             exists k, (1 <= k <= 127)%nat /\ q = lit (Z.of_nat k # 128))
  /\ high b = nadd (low b) (lit (1 # 128)).
Proof.
  destruct (sameWalk_bisectionFrom encode budget 7 bisectionInit walkInit)
    as (answers & Hlen & (Hl & Hh & _ & Ht & _)).
  { repeat split. constructor. }
  fold (bisection encode budget 7) in Hl, Hh, Ht.
  pose proof (walk_onGrid answers Hlen) as Hgrid.
  unfold onGrid in Hgrid. apply andb_true_iff in Hgrid as [Hseen Hwidth].
  cbv zeta. rewrite Hl, Hh, Ht. split.
  - intros q ([q' a] & <- & Hin)%in_map_iff.
    rewrite forallb_forall in Hseen. specialize (Hseen _ Hin).
    apply existsb_exists in Hseen as (g & Hg & Hsame).
    apply b64_same_eq in Hsame. rewrite Hsame. now apply in_gridQualities.
  - now apply b64_same_eq.
Qed.

(** In binary64 the search never rounds: every quality [compressImage]
    encodes at is 0.1 or one of 1/128, ..., 127/128, and the loop ends with
    its bounds 1/128 apart. *)
Theorem compressImage_grid (host : Host binary64) (img : Image)
    (mimeType : string) (targetSize : binary64) (isPngConversion : bool) :
  searchable mimeType = true ->
  (forall q, toDataURL host (prepareCanvas img isPngConversion) mimeType (Some q)
             <> DataEmpty) ->
  let canvas := prepareCanvas img isPngConversion in
  (forall q,
     In (callAt canvas mimeType q)
        (snd (compressImage host img mimeType targetSize isPngConversion [])) ->
     q = lit 0.1
     \/ exists k, (1 <= k <= 127)%nat /\ q = lit (Z.of_nat k # 128))
  /\ exists s log,
       for_loop 7 (searchStep host canvas mimeType targetSize) searchInit []
       = (Ok s, log)
       /\ maxQuality s = nadd (minQuality s) (lit (1 # 128)).
Proof.
  intros Hsearch Hencodes canvas. subst canvas.
  destruct (bisection_onGrid
              (encodeAt host (prepareCanvas img isPngConversion) mimeType)
              targetSize) as [Hgrid Hwidth].
  split.
  - intros q.
    rewrite (compressImage_search_log host img mimeType targetSize
               isPngConversion Hencodes Hsearch).
    intros [Hq|Hq]%in_app_or.
    + right. apply in_callAt in Hq. now apply Hgrid.
    + left. destruct (best _) as [?|]; [destruct Hq|].
      destruct Hq as [Hq|[]]. unfold callAt in Hq. now injection Hq as <-.
  - pose proof (for_loop_bisectionFrom host img mimeType targetSize
                  isPngConversion Hencodes 7 bisectionInit []) as Hloop.
    change (toSearch bisectionInit) with (@searchInit binary64 _) in Hloop.
    cbn [tested bisectionInit map app] in Hloop.
    eexists _, _. split; [exact Hloop|]. exact Hwidth.
Qed.

Lemma compressImage_grid_witness :
  let canvas := prepareCanvas demoImage true in
  (forall q,
     In (callAt canvas "image/jpeg" q)
        (snd (compressImage demoHost demoImage "image/jpeg" (lit 100) true [])) ->
     q = lit 0.1
     \/ exists k, (1 <= k <= 127)%nat /\ q = lit (Z.of_nat k # 128))
  /\ exists s log,
       for_loop 7 (searchStep demoHost canvas "image/jpeg" (lit 100)) searchInit []
       = (Ok s, log)
       /\ maxQuality s = nadd (minQuality s) (lit (1 # 128)).
Proof.
  apply (compressImage_grid demoHost demoImage "image/jpeg" (lit 100) true).
  - reflexivity.
  - intros q. discriminate.
Defined.

(** ** How close to the best quality the search ends *)






